(** * pygccxml.declarations.type_traits: type traits and convertibility

  A shallow embedding of [pygccxml/declarations/type_traits.py].  Python
  objects become values of inductive types, attribute access that may fail
  and [assert]/[raise] become an error monad, and the recursion of
  [is_convertible] is indexed by a recursion budget. *)

From Stdlib Require Import List Bool Arith NArith Lia String Ascii.
Import ListNotations.
Local Open Scope list_scope.

(** ** Exceptions and the error monad *)

Inductive exn : Type :=
| AttributeError
| AssertionError
| RuntimeError
| IndexError.

Inductive M (A : Type) : Type :=
| Ok (a : A)
| Raise (e : exn).

Arguments Ok {A} a.
Arguments Raise {A} e.

Definition bind {A B : Type} (m : M A) (k : A -> M B) : M B :=
match m with
| Ok a => k a
| Raise e => Raise e
end.

Declare Scope py_scope.
Delimit Scope py_scope with py.
Notation "x <- m ;; k" := (bind m (fun x => k))
(at level 61, m at next level, right associativity) : py_scope.
Local Open Scope py_scope.

(** Python's short-circuit [a and b] / [a or b] when [b] may raise. *)
Definition and_then (a : bool) (b : M bool) : M bool :=
if a then b else Ok false.

Definition or_else (a : bool) (b : M bool) : M bool :=
if a then Ok true else b.

Definition raised {A : Type} (m : M A) : Prop :=
exists e, m = Raise e.

(** ** cpptypes: the type expression model *)

Module cpptypes.

(** The fundamental kinds; [int_t] stands for the Python class
    [cpptypes.int_t], whose instances are [fundamental_t int_t]. *)
Inductive kind : Type :=
| void_t | bool_t | char_t | signed_char_t | unsigned_char_t | wchar_t
| short_int_t | short_unsigned_int_t | int_t | unsigned_int_t
| long_int_t | long_unsigned_int_t | long_long_int_t
| long_long_unsigned_int_t | int128_t | uint128_t
| float_t | double_t | long_double_t.

(** Declarations are referred to by identity: a class, a forward class
    declaration or an enumeration of the declaration store, or the value
    [None] that [__normalize] may store in a [declarated_t]. *)
Inductive declaration : Type :=
| class_t (id : nat)
| class_declaration_t (id : nat)
| enumeration_t (id : nat)
| None_t.

(** Modelled from the spec: the classes of [cpptypes] are not among the
    sources at hand; the variants are those of the spec's Type Expression:
    Fundamental, Const, Volatile, Pointer, Reference, Array, the three
    callable-type variants, DeclaredRef and Alias.  The compound types
    ([compound_t], the ones with a [base] attribute) are Const, Volatile,
    Pointer, Reference and Array.  The callable-type variants are leaves:
    the types a function or member variable type is made of are not part
    of the model. *)
Inductive type_t : Type :=
| fundamental_t (k : kind)
| const_t (base : type_t)
| volatile_t (base : type_t)
| pointer_t (base : type_t)
| reference_t (base : type_t)
| array_t (base : type_t) (size : N)
| free_function_type_t (signature : string)
| member_function_type_t (signature : string)
| member_variable_type_t (signature : string)
| declarated_t (declaration : declaration)
| alias_t (name : string) (aliased : type_t).

Definition kind_eq_dec (x y : kind) : {x = y} + {x <> y}.
Proof. decide equality. Defined.

Definition declaration_eq_dec (x y : declaration) : {x = y} + {x <> y}.
Proof. decide equality; apply Nat.eq_dec. Defined.

Definition type_eq_dec (x y : type_t) : {x = y} + {x <> y}.
Proof.
  decide equality;
    first [ apply kind_eq_dec | apply N.eq_dec | apply string_dec
          | apply declaration_eq_dec ].
Defined.

(** Modelled from the spec: the comparison of [cpptypes] is not among the
    sources at hand.  [t1 == t2] on type expressions is the spec's
    "recursive structural equality" (4.1), and on a DeclaredRef "equality
    compares the referenced declaration's identity, not structure" (3).
    The spec's Type Expression always refers to a declaration: the
    comparison of a [declarated_t] that holds [None_t], which [__normalize]
    can leave below a pointer, a reference or a qualifier, is outside this
    model, and the properties of [is_convertible] on arbitrary operands
    assume [holds_declaration] of them. *)
Definition type_eqb (x y : type_t) : bool :=
  if type_eq_dec x y then true else false.

(** Modelled from the spec: [d1 == d2] and [d1 is d2] on declarations are
    identity, the declarations of the store being told apart by their
    identifiers. *)
Definition declaration_eqb (x y : declaration) : bool :=
  if declaration_eq_dec x y then true else false.

(** [isinstance(t, cpptypes.compound_t)] *)
Definition is_compound_t (t : type_t) : bool :=
  match t with
  | const_t _ | volatile_t _ | pointer_t _ | reference_t _ | array_t _ _ =>
      true
  | _ => false
  end.

(** [isinstance(t, cpptypes.calldef_type_t)]: [calldef_type_t] is the base
    class of the two function types, free and member; [is_calldef_pointer],
    which tests it, is documented as "pointer to free/member function".  A
    member variable type is not one of them. *)
Definition is_calldef_type_t (t : type_t) : bool :=
  match t with
  | free_function_type_t _ | member_function_type_t _ => true
  | _ => false
  end.

(** The attribute [t.base]: only compound types have it. *)
Definition base (t : type_t) : M type_t :=
  match t with
  | const_t b | volatile_t b | pointer_t b | reference_t b | array_t b _ =>
      Ok b
  | _ => Raise AttributeError
  end.

(** The Python classes that [does_match_definition] compares with
    [isinstance], [__class__] and [issubclass]. *)
Inductive pyclass : Type :=
| cls_fundamental_t
| cls_kind (k : kind)
| cls_const_t | cls_volatile_t | cls_pointer_t | cls_reference_t
| cls_array_t
| cls_free_function_type_t | cls_member_function_type_t
| cls_member_variable_type_t
| cls_declarated_t
| cls_typedef.

Definition pyclass_eq_dec (x y : pyclass) : {x = y} + {x <> y}.
Proof. decide equality; apply kind_eq_dec. Defined.

(** [tp.__class__] *)
Definition class_of (t : type_t) : pyclass :=
  match t with
  | fundamental_t k => cls_kind k
  | const_t _ => cls_const_t
  | volatile_t _ => cls_volatile_t
  | pointer_t _ => cls_pointer_t
  | reference_t _ => cls_reference_t
  | array_t _ _ => cls_array_t
  | free_function_type_t _ => cls_free_function_type_t
  | member_function_type_t _ => cls_member_function_type_t
  | member_variable_type_t _ => cls_member_variable_type_t
  | declarated_t _ => cls_declarated_t
  | alias_t _ _ => cls_typedef
  end.

(** [issubclass(c, d)]: every class is a subclass of itself and each
    fundamental kind is a subclass of [fundamental_t]. *)
Definition issubclass (c d : pyclass) : bool :=
  if pyclass_eq_dec c d then true
  else match c, d with
       | cls_kind _, cls_fundamental_t => true
       | _, _ => false
       end.

(** [isinstance(tp, cls)] *)
Definition isinstance (t : type_t) (c : pyclass) : bool :=
  issubclass (class_of t) c.

End cpptypes.
Import cpptypes.

(** Objects that flow through [remove_declarated] and [is_same]: a type
  expression or a declaration. *)
Inductive obj : Type :=
| T (t : type_t)
| D (d : declaration).

Definition obj_eqb (x y : obj) : bool :=
match x, y with
| T a, T b => type_eqb a b
| D a, D b => declaration_eqb a b
| _, _ => false
end.

(** ** type_traits_utils *)

Module type_traits_utils.

(** Modelled from the spec: [type_traits_utils.remove_alias] is not among
    the sources at hand.  Spec 4.1: "a single alias-resolution step
    (resolve_alias: unwrap exactly one Alias layer, returning the
    underlying expression unchanged if not an alias)". *)
Definition remove_alias (type_ : type_t) : type_t :=
  match type_ with
  | alias_t _ aliased => aliased
  | _ => type_
  end.

(** Modelled from the spec: [type_traits_utils.decompose_type] is not among
    the sources at hand.  It lists the layers of a type expression,
    outermost first, down to the innermost non-compound type; an Alias is
    "transparent to all normalization" (spec 3) and so is not a layer. *)
Fixpoint decompose_type (tp : type_t) : list type_t :=
  match tp with
  | const_t b | volatile_t b | pointer_t b | reference_t b | array_t b _ =>
      tp :: decompose_type b
  | alias_t _ aliased => decompose_type aliased
  | _ => [tp]
  end.

(** Modelled from the spec: [type_traits_utils.base_type] is not among the
    sources at hand; it is the innermost layer of [decompose_type]. *)
Fixpoint base_type (type_ : type_t) : type_t :=
  match type_ with
  | const_t b | volatile_t b | pointer_t b | reference_t b | array_t b _ =>
      base_type b
  | alias_t _ aliased => base_type aliased
  | _ => type_
  end.

End type_traits_utils.
Import type_traits_utils.

(** ** type_traits: classification and qualifier normalization *)

(** [create_cv_types(base)] *)
Definition create_cv_types (base : type_t) : list type_t :=
  [base; const_t base; volatile_t base; volatile_t (const_t base)].

(** [x in xs] on a list of type expressions *)
Definition type_in (x : type_t) (xs : list type_t) : bool :=
  existsb (type_eqb x) xs.

(** Python sets of classes, as duplicate-free lists. *)
Definition set_of (l : list pyclass) : list pyclass :=
  nodup pyclass_eq_dec l.

Definition class_mem (c : pyclass) (s : list pyclass) : bool :=
  if in_dec pyclass_eq_dec c s then true else false.

Definition symmetric_difference (a b : list pyclass) : list pyclass :=
  filter (fun c => negb (class_mem c b)) a ++
  filter (fun c => negb (class_mem c a)) b.

(** [does_match_definition(given, main, secondary)]; [types] is never empty,
    so the default of [nth] is not used for [types[0]]. *)
Definition does_match_definition
  (given : type_t) (main : pyclass) (secondary : pyclass * pyclass) : bool :=
  let isinstance2 t := isinstance t (fst secondary) || isinstance t (snd secondary) in
  let types := decompose_type given in
  let types0 := nth 0 types given in
  let types1 := nth 1 types given in
  if isinstance types0 main then true
  else if (2 <=? List.length types) &&
          ((isinstance types0 main && isinstance2 types1) ||
           (isinstance types1 main && isinstance2 types0)) then true
  else if 3 <=? List.length types then
    let classes := set_of (map class_of (firstn 3 types)) in
    let desired := set_of (main :: [fst secondary; snd secondary]) in
    let diff := symmetric_difference classes desired in
    match diff with
    | [] => true
    | [item0; item1] => issubclass item0 item1 || issubclass item1 item0
    | _ => false
    end
  else false.

Definition is_bool (type_ : type_t) : bool :=
  type_in (remove_alias type_) (create_cv_types (fundamental_t bool_t)).

Definition is_void (type : type_t) : bool :=
  type_in (remove_alias type) (create_cv_types (fundamental_t void_t)).

Definition integral_def : list type_t :=
  create_cv_types (fundamental_t char_t) ++
  create_cv_types (fundamental_t unsigned_char_t) ++
  create_cv_types (fundamental_t signed_char_t) ++
  create_cv_types (fundamental_t wchar_t) ++
  create_cv_types (fundamental_t short_int_t) ++
  create_cv_types (fundamental_t short_unsigned_int_t) ++
  create_cv_types (fundamental_t bool_t) ++
  create_cv_types (fundamental_t int_t) ++
  create_cv_types (fundamental_t unsigned_int_t) ++
  create_cv_types (fundamental_t long_int_t) ++
  create_cv_types (fundamental_t long_unsigned_int_t) ++
  create_cv_types (fundamental_t long_long_int_t) ++
  create_cv_types (fundamental_t long_long_unsigned_int_t) ++
  create_cv_types (fundamental_t int128_t) ++
  create_cv_types (fundamental_t uint128_t).

Definition is_integral (type : type_t) : bool :=
  type_in (remove_alias type) integral_def.

Definition float_def : list type_t :=
  create_cv_types (fundamental_t float_t) ++
  create_cv_types (fundamental_t double_t) ++
  create_cv_types (fundamental_t long_double_t).

Definition is_floating_point (type : type_t) : bool :=
  type_in (remove_alias type) float_def.

Definition is_arithmetic (type : type_t) : bool :=
  is_integral type || is_floating_point type.

Definition is_pointer (type : type_t) : bool :=
  does_match_definition type cls_pointer_t (cls_const_t, cls_volatile_t)
  || does_match_definition type cls_pointer_t (cls_volatile_t, cls_const_t).

Definition is_fundamental (type : type_t) : bool :=
  does_match_definition type cls_fundamental_t (cls_const_t, cls_volatile_t)
  || does_match_definition type cls_fundamental_t (cls_volatile_t, cls_const_t).

(** [remove_pointer(type)] *)
Definition remove_pointer (type : type_t) : M type_t :=
  let nake_type := remove_alias type in
  if negb (is_pointer nake_type) then Ok type
  else
    match nake_type with
    | volatile_t (pointer_t b) => Ok (volatile_t b)
    | const_t (pointer_t b) => Ok (const_t b)
    | volatile_t (const_t (pointer_t b)) => Ok (volatile_t (const_t b))
    | _ =>
        nake_base <- base nake_type ;;
        if is_calldef_type_t nake_base then Ok type else Ok nake_base
    end.

Definition is_reference (type : type_t) : bool :=
  isinstance (remove_alias type) cls_reference_t.

(** [remove_reference(type)] *)
Definition remove_reference (type : type_t) : M type_t :=
  let nake_type := remove_alias type in
  if negb (is_reference nake_type) then Ok type
  else base nake_type.

(** [is_const(type)]: the recursive calls are on [nake_type.base], where
    [nake_type = remove_alias(type)]. *)
Fixpoint is_const (type : type_t) : bool :=
  let test nake_type :=
    match nake_type with
    | const_t _ => true
    | volatile_t b => is_const b
    | array_t b _ => is_const b
    | _ => false
    end in
  match type with
  | alias_t _ aliased => test aliased
  | _ => test type
  end.

(** [is_volatile(type)] *)
Fixpoint is_volatile (type : type_t) : bool :=
  let test nake_type :=
    match nake_type with
    | volatile_t _ => true
    | const_t b => is_volatile b
    | array_t b _ => is_volatile b
    | _ => false
    end in
  match type with
  | alias_t _ aliased => test aliased
  | _ => test type
  end.

(** [remove_const(type_)] *)
Definition remove_const (type_ : type_t) : M type_t :=
  let nake_type := remove_alias type_ in
  if negb (is_const nake_type) then Ok type_
  else
    match nake_type with
    | array_t _ size =>
        let is_v := is_volatile nake_type in
        result_type <-
          (if is_v
           then b1 <- base nake_type ;; b2 <- base b1 ;; base b2
           else b1 <- base nake_type ;; base b1) ;;
        let result_type := if is_v then volatile_t result_type else result_type in
        Ok (array_t result_type size)
    | volatile_t _ =>
        b1 <- base nake_type ;; b2 <- base b1 ;; Ok (volatile_t b2)
    | _ => base nake_type
    end.

(** [remove_volatile(type)] *)
Definition remove_volatile (type : type_t) : M type_t :=
  let nake_type := remove_alias type in
  if negb (is_volatile nake_type) then Ok type
  else
    match nake_type with
    | array_t _ size =>
        let is_c := is_const nake_type in
        base_type <-
          (if is_c
           then b1 <- base nake_type ;; b2 <- base b1 ;; base b2
           else b1 <- base nake_type ;; base b1) ;;
        let result_type := if is_c then const_t base_type else base_type in
        Ok (array_t result_type size)
    | _ => base nake_type
    end.

(** [remove_cv(type)] *)
Definition remove_cv (type : type_t) : M type_t :=
  let nake_type := remove_alias type in
  if negb (is_const nake_type) && negb (is_volatile nake_type) then Ok type
  else
    result <- (if is_const nake_type then remove_const nake_type
               else Ok nake_type) ;;
    result <- (if is_volatile result then remove_volatile result
               else Ok result) ;;
    if is_const result then remove_const result else Ok result.

(** [is_array(type)] *)
Definition is_array (type : type_t) : M bool :=
  let nake_type := remove_alias type in
  nake_type <- remove_reference nake_type ;;
  nake_type <- remove_cv nake_type ;;
  Ok (isinstance nake_type cls_array_t).

(** [array_size(type)] *)
Definition array_size (type : type_t) : M N :=
  let nake_type := remove_alias type in
  nake_type <- remove_reference nake_type ;;
  nake_type <- remove_cv nake_type ;;
  match nake_type with
  | array_t _ size => Ok size
  | _ => Raise AssertionError
  end.

(** [array_item_type(type_)] *)
Definition array_item_type (type_ : type_t) : M type_t :=
  is_arr <- is_array type_ ;;
  if is_arr then
    let type_ := remove_alias type_ in
    type_ <- remove_cv type_ ;;
    base type_
  else if is_pointer type_ then remove_pointer type_
  else Raise RuntimeError.

(** [remove_declarated(type_)]: the result is a type expression or the
    declaration a [declarated_t] refers to; a declaration given as argument
    goes through unchanged. *)
Definition remove_declarated (type_ : obj) : obj :=
  match type_ with
  | T t =>
      match remove_alias t with
      | declarated_t d => D d
      | t' => T t'
      end
  | D d => D d
  end.

(** [is_same(type1, type2)] *)
Definition is_same (type1 type2 : obj) : bool :=
  let nake_type1 := remove_declarated type1 in
  let nake_type2 := remove_declarated type2 in
  obj_eqb nake_type1 nake_type2.

Coercion T : type_t >-> obj.

Definition is_void_pointer (type : type_t) : bool :=
  is_same type (pointer_t (fundamental_t void_t)).

(** [is_calldef_pointer(type)] *)
Definition is_calldef_pointer (type : type_t) : M bool :=
  if negb (is_pointer type) then Ok false
  else
    let nake_type := remove_alias type in
    nake_type <- remove_cv nake_type ;;
    if is_compound_t nake_type
    then nake_base <- base nake_type ;; Ok (is_calldef_type_t nake_base)
    else Ok false.


(** ** The declaration store *)

Module class_declaration.

Inductive ACCESS_TYPES : Type := PUBLIC | PROTECTED | PRIVATE.

Inductive CLASS_TYPES : Type := CLASS | STRUCT | UNION.

Definition ACCESS_TYPES_eq_dec (x y : ACCESS_TYPES) : {x = y} + {x <> y}.
Proof. decide equality. Defined.

Definition access_eqb (x y : ACCESS_TYPES) : bool :=
  if ACCESS_TYPES_eq_dec x y then true else false.

(** One entry of [class_t.recursive_bases]. *)
Record hierarchy_info_t : Type := {
  related_class : declaration;
  access_type : ACCESS_TYPES;
  is_virtual : bool
}.

Record argument_t : Type := {
  arg_name : string;
  decl_type : type_t
}.

Record constructor_t : Type := {
  arguments : list argument_t;
  ctor_access_type : ACCESS_TYPES;
  ctor_is_artificial : bool
}.

Record casting_operator_t : Type := {
  return_type : type_t;
  oper_access_type : ACCESS_TYPES
}.

Record typedef_t : Type := {
  typedef_name : string;
  typedef_decl_type : type_t
}.

(** The members of a class that the traits look at. *)
Inductive member : Type :=
| constructor (c : constructor_t)
| casting_operator (o : casting_operator_t)
| typedef (t : typedef_t)
| other_member (name : string).

(** Modelled from the spec: [class_declaration.class_t] is not among the
    sources at hand.  Spec 3, ClassDeclaration: "name, ..., abstract flag,
    union/class/struct kind, ordered base-class list ..., member list", with
    the "recursive, transitively-computed base list exposed per class". *)
Record class_def : Type := {
  name : string;
  class_type : CLASS_TYPES;
  is_abstract : bool;
  recursive_bases : list hierarchy_info_t;
  declarations : list member
}.

(** The store: the definition of each class, and for a forward class
    declaration its name and the definition found for it in its parent scope
    ([__find_class_by_class_declaration]; [None_t] when there is none). *)
Record store : Type := {
  class_of_id : nat -> class_def;
  find_class_by_class_declaration : nat -> declaration;
  class_declaration_name : nat -> string
}.

(** An entry of the global namespace as [global_ns.decls] sees it: a free
    function or another callable, or any other declaration (a typedef is the
    alias it declares). *)
Inductive ns_entry : Type :=
| ns_calldef
| ns_decl (o : obj).

(** The declarations below the global namespace, with their full names. *)
Definition namespace_t : Type := list (string * ns_entry).

End class_declaration.
Import class_declaration.

(** [scopedef.find_all_declarations(decls, decl_type=constructor_t,
    recursive=False)] *)
Fixpoint find_all_constructors (decls : list member) : list constructor_t :=
  match decls with
  | [] => []
  | constructor c :: rest => c :: find_all_constructors rest
  | _ :: rest => find_all_constructors rest
  end.

(** [scopedef.find_all_declarations(decls, decl_type=casting_operator_t,
    recursive=False)] *)
Fixpoint find_all_casting_operators (decls : list member)
  : list casting_operator_t :=
  match decls with
  | [] => []
  | casting_operator o :: rest => o :: find_all_casting_operators rest
  | _ :: rest => find_all_casting_operators rest
  end.

(** [is_copy_constructor(args, parent)] *)
Definition is_copy_constructor
  (args : list argument_t) (parent : declaration) : M bool :=
  if negb (List.length args =? 1) then Ok false
  else
    match args with
    | [] => Raise IndexError
    | arg :: _ =>
        if negb (is_compound_t (decl_type arg)) then Ok false
        else if negb (is_reference (decl_type arg)) then Ok false
        else
          arg_base <- base (decl_type arg) ;;
          if negb (is_const arg_base) then Ok false
          else
            let un_aliased := remove_alias arg_base in
            un_aliased_base <- base un_aliased ;;
            match un_aliased_base with
            | declarated_t d => Ok (declaration_eqb d parent)
            | _ => Ok false
            end
    end.

(** [declaration_xxx_traits.__apply_sequence]: [remove_alias], [remove_cv],
    [remove_declarated] in turn; a declaration object goes through the three
    of them unchanged. *)
Definition apply_sequence (type_ : obj) : M obj :=
  match type_ with
  | T t =>
      t <- remove_cv (remove_alias t) ;;
      Ok (remove_declarated (T t))
  | D d => Ok (D d)
  end.

(** [is_enum = enum_traits.is_my_case] *)
Definition is_enum (type_ : obj) : M bool :=
  o <- apply_sequence type_ ;;
  match o with
  | D (enumeration_t _) => Ok true
  | _ => Ok false
  end.

(** [is_class = class_traits.is_my_case] *)
Definition is_class (type_ : obj) : M bool :=
  o <- apply_sequence type_ ;;
  match o with
  | D (class_t _) => Ok true
  | _ => Ok false
  end.

(** [is_class_declaration = class_declaration_traits.is_my_case] *)
Definition is_class_declaration (type_ : obj) : M bool :=
  o <- apply_sequence type_ ;;
  match o with
  | D (class_declaration_t _) => Ok true
  | _ => Ok false
  end.

Section Store.

Variable st : store.

(** Modelled from the spec: [class_t.find_copy_constructor] is not among the
    sources at hand.  Spec 4.5: the class's direct member list is scanned for
    a constructor that "matches as copy constructor"; the first one is
    returned, [None] when there is none. *)
Fixpoint first_copy_constructor
  (parent : declaration) (ctors : list constructor_t)
  : M (option constructor_t) :=
  match ctors with
  | [] => Ok None
  | c :: rest =>
      is_copy <- is_copy_constructor (arguments c) parent ;;
      if is_copy then Ok (Some c) else first_copy_constructor parent rest
  end.

Definition find_copy_constructor (class_id : nat) : M (option constructor_t) :=
  first_copy_constructor (class_t class_id)
    (find_all_constructors (declarations (class_of_id st class_id))).

(** [has_copy_constructor(class_)]: the public copy constructor or [None];
    only a class has the method [find_copy_constructor]. *)
Definition has_copy_constructor (class_ : obj) : M (option constructor_t) :=
  class_ <- apply_sequence class_ ;;
  match class_ with
  | D (class_t id) =>
      copy_constructor <- find_copy_constructor id ;;
      match copy_constructor with
      | Some c =>
          if access_eqb (ctor_access_type c) PUBLIC then Ok (Some c)
          else Ok None
      | None => Ok None
      end
  | _ => Raise AttributeError
  end.

(** The second argument of [is_base_and_derived]: a class or a tuple. *)
Inductive derived_arg : Type :=
| one_class (d : declaration)
| tuple_of (ds : list declaration).

Definition is_class_t (d : declaration) : bool :=
  match d with class_t _ => true | _ => false end.

(** [derived_cls.recursive_bases] *)
Definition recursive_bases_of (d : declaration) : M (list hierarchy_info_t) :=
  match d with
  | class_t id => Ok (recursive_bases (class_of_id st id))
  | _ => Raise AttributeError
  end.

Fixpoint any_related (based : declaration) (all_derived : list declaration)
  : M bool :=
  match all_derived with
  | [] => Ok false
  | derived_cls :: rest =>
      bases <- recursive_bases_of derived_cls ;;
      if existsb (fun base_desc => declaration_eqb (related_class base_desc) based)
           bases
      then Ok true
      else any_related based rest
  end.

(** [is_base_and_derived(based, derived)] *)
Definition is_base_and_derived (based : declaration) (derived : derived_arg)
  : M bool :=
  if negb (is_class_t based) then Raise AssertionError
  else
    match derived with
    | one_class d =>
        if negb (is_class_t d) then Raise AssertionError
        else any_related based [d]
    | tuple_of ds => any_related based ds
    end.

End Store.

(** ** The convertibility engine: class [__is_convertible_t] *)

(** The outcome of a call whose recursion is cut by a budget: [None] when the
    budget is exhausted, otherwise the value returned or the exception
    raised. *)
Definition outcome (A : Type) : Type := option (M A).

(** [if c: return True], followed by the rest of the function. *)
Definition return_True_if (c : outcome bool) (rest : outcome bool)
  : outcome bool :=
  match c with
  | Some (Ok true) => Some (Ok true)
  | Some (Ok false) => rest
  | Some (Raise e) => Some (Raise e)
  | None => None
  end.

(** [if c: return False], followed by the rest of the function. *)
Definition return_False_if (c : outcome bool) (rest : outcome bool)
  : outcome bool :=
  match c with
  | Some (Ok true) => Some (Ok false)
  | Some (Ok false) => rest
  | Some (Raise e) => Some (Raise e)
  | None => None
  end.

(** [for x in xs: if f(x): return True], followed by the rest. *)
Fixpoint return_True_if_any {A : Type} (f : A -> outcome bool) (xs : list A)
  (rest : outcome bool) : outcome bool :=
  match xs with
  | [] => rest
  | x :: xs' => return_True_if (f x) (return_True_if_any f xs' rest)
  end.

(** [c1 and c2] where both may raise or exhaust the budget. *)
Definition and_also (c1 c2 : outcome bool) : outcome bool :=
  match c1 with
  | Some (Ok true) => c2
  | other => other
  end.

(** [isinstance(t, (free_function_type_t, member_function_type_t,
    member_variable_type_t))] *)
Definition is_func_or_mv (t : type_t) : bool :=
  isinstance t cls_free_function_type_t
  || isinstance t cls_member_function_type_t
  || isinstance t cls_member_variable_type_t.

Definition is_declarated_t (t : type_t) : bool :=
  isinstance t cls_declarated_t.

(** The attribute [t.declaration] of a [declarated_t]. *)
Definition declaration_of (t : type_t) : M declaration :=
  match t with
  | declarated_t d => Ok d
  | _ => Raise AttributeError
  end.

(** [base_type(type_).declaration = d] on a clone of [type_]. *)
Fixpoint set_base_type_declaration (type_ : type_t) (d : declaration) : type_t :=
  match type_ with
  | const_t b => const_t (set_base_type_declaration b d)
  | volatile_t b => volatile_t (set_base_type_declaration b d)
  | pointer_t b => pointer_t (set_base_type_declaration b d)
  | reference_t b => reference_t (set_base_type_declaration b d)
  | array_t b n => array_t (set_base_type_declaration b d) n
  | alias_t s a => alias_t s (set_base_type_declaration a d)
  | declarated_t _ => declarated_t d
  | _ => type_
  end.

Section Convertible.

Variable st : store.

(** [__normalize(type_)] *)
Definition normalize (type_ : type_t) : type_t :=
  let type_ := remove_alias type_ in
  let bt_of_type := base_type type_ in
  match bt_of_type with
  | declarated_t (class_declaration_t id) =>
      set_base_type_declaration type_ (find_class_by_class_declaration st id)
  | _ => type_
  end.

(** [__test_trivial(source, target)]; a type expression is a true value, so
    the first test never returns. *)
Definition test_trivial (source target : type_t) : M bool :=
  if is_same source target then Ok true
  else
  c <- and_then (is_const target)
         (target_base <- base target ;; Ok (is_same source target_base)) ;;
  if c then Ok true
  else
  c <- and_then (is_reference target)
         (target_base <- base target ;; Ok (is_same source target_base)) ;;
  if c then Ok true
  else
  c <- and_then (is_reference target)
         (target_base <- base target ;;
          and_then (is_const target_base)
            (target_base_base <- base target_base ;;
             Ok (is_same source target_base_base))) ;;
  if c then Ok true
  else
  if is_same target (pointer_t (fundamental_t void_t)) then
    c <- or_else (is_integral source) (is_enum source) ;;
    if c then Ok false else Ok true
  else
  c <- and_then (is_pointer source && is_pointer target)
         (target_base <- base target ;;
          and_then (is_const target_base)
            (source_base <- base source ;;
             target_base_base <- base target_base ;;
             Ok (is_same source_base target_base_base))) ;;
  if c then Ok true
  else
  c <- and_then (is_reference source && is_reference target)
         (target_base <- base target ;;
          and_then (is_const target_base)
            (source_base <- base source ;;
             target_base_base <- base target_base ;;
             Ok (is_same source_base target_base_base))) ;;
  if c then Ok true
  else
  c <- and_then (negb (is_const source))
         (is_arr <- is_array source ;;
          and_then (is_arr && is_pointer target)
            (target_base <- base target ;;
             Ok (is_same (base_type source) target_base))) ;;
  if c then Ok true
  else
  c <- (is_arr <- is_array source ;;
        and_then (is_arr && is_pointer target)
          (target_base <- base target ;;
           and_then (is_const target_base)
             (target_base_base <- base target_base ;;
              Ok (is_same (base_type source) target_base_base)))) ;;
  if c then Ok true
  else Ok false.

(** [__test_pointer_to_func_or_mv__to__func_or_mv(source, target)] *)
Definition test_pointer_to_func_or_mv__to__func_or_mv
  (source target : type_t) : M bool :=
  c <- and_then (is_pointer source && is_reference target)
         (target_base <- base target ;;
          and_then (is_func_or_mv target_base)
            (source_base <- base source ;;
             Ok (is_same source_base target_base))) ;;
  if c then Ok true
  else
  c <- and_then (is_pointer source && is_func_or_mv target)
         (source_base <- base source ;; Ok (is_same source_base target)) ;;
  if c then Ok true
  else
  c <- and_then (is_pointer target && is_reference source)
         (source_base <- base source ;;
          and_then (is_func_or_mv source_base)
            (target_base <- base target ;;
             Ok (is_same source_base target_base))) ;;
  if c then Ok true
  else
  c <- and_then (is_pointer target && is_func_or_mv source)
         (target_base <- base target ;; Ok (is_same target_base source)) ;;
  if c then Ok true
  else Ok false.

(** The common end of the four reference tests:
    [if isinstance(target, declarated_t): assert ...; if
    has_copy_constructor(target.declaration): return True], then
    [return False]. *)
Definition copy_constructible_class (target : type_t) : M bool :=
  match target with
  | declarated_t d =>
      if negb (is_class_t d) then Raise AssertionError
      else
        copy_constructor <- has_copy_constructor st (D d) ;;
        match copy_constructor with
        | Some _ => Ok true
        | None => Ok false
        end
  | _ => Ok false
  end.

(** [__test_const_x_ref__to__x(source, target)] *)
Definition test_const_x_ref__to__x (source target : type_t) : M bool :=
  c <- or_else (negb (is_reference source))
         (source_base <- base source ;;
          or_else (negb (is_const source_base))
            (source_base_base <- base source_base ;;
             Ok (negb (is_same source_base_base target)))) ;;
  if c then Ok false
  else if is_fundamental target then Ok true
  else
    e <- is_enum target ;;
    if e then Ok true
    else copy_constructible_class target.

(** [__test_ref_x__to__x(source, target)] *)
Definition test_ref_x__to__x (source target : type_t) : M bool :=
  c <- or_else (negb (is_reference source))
         (source_base <- base source ;;
          Ok (negb (is_same source_base target))) ;;
  if c then Ok false
  else if is_fundamental target then Ok true
  else
    e <- is_enum target ;;
    if e then Ok true
    else copy_constructible_class target.

(** The module-level [is_convertible], called by two of the tests and by the
    method [is_convertible] itself. *)
Variable is_convertible_rec : type_t -> type_t -> outcome bool.

(** [__test_const_ref_x__to__y(source, target)] *)
Definition test_const_ref_x__to__y (source target : type_t) : outcome bool :=
  match (or_else (negb (is_reference source))
           (source_base <- base source ;; Ok (negb (is_const source_base)))) with
  | Raise e => Some (Raise e)
  | Ok true => Some (Ok false)
  | Ok false =>
      match (source_base <- base source ;; base source_base) with
      | Raise e => Some (Raise e)
      | Ok source_base_base =>
          if is_fundamental source_base_base && is_fundamental target
          then Some (Ok true)
          else
            return_True_if
              (and_also
                 (is_convertible_rec source_base_base (fundamental_t int_t))
                 (Some (is_enum target)))
              (Some (copy_constructible_class target))
      end
  end.

(** [__test_ref_x__to__y(source, target)] *)
Definition test_ref_x__to__y (source target : type_t) : outcome bool :=
  if negb (is_reference source) then Some (Ok false)
  else
    match base source with
    | Raise e => Some (Raise e)
    | Ok source_base =>
        if is_fundamental source_base && is_fundamental target
        then Some (Ok true)
        else
          return_True_if
            (and_also
               (is_convertible_rec source_base (fundamental_t int_t))
               (Some (is_enum target)))
            (Some (copy_constructible_class target))
    end.

(** [__test_fundamental__to__fundamental(source, target)] *)
Definition test_fundamental__to__fundamental (source target : type_t)
  : M bool :=
  if negb (is_fundamental (base_type source))
     || negb (is_fundamental (base_type target)) then Ok false
  else if is_void (base_type source) || is_void (base_type target)
  then Ok false
  else if is_fundamental source && is_fundamental target then Ok true
  else if negb (is_pointer source) && is_fundamental target then Ok true
  else
  c <- and_then (negb (is_pointer source) && is_const target)
         (target_base <- base target ;; Ok (is_fundamental target_base)) ;;
  if c then Ok true
  else
  c <- and_then (is_fundamental source && is_reference target)
         (target_base <- base target ;;
          and_then (is_const target_base)
            (target_base_base <- base target_base ;;
             Ok (is_fundamental target_base_base))) ;;
  if c then Ok true
  else Ok false.

(** [_is_both_declarated(x, y)] *)
Definition is_both_declarated (x y : type_t) : bool :=
  is_declarated_t x && is_declarated_t y.

(** The first loop of [__test_derived_to_based]:
    [(b.related_class is base) and b.access_type != PRIVATE] for some [b]. *)
Definition has_non_private_base (bases : list hierarchy_info_t)
  (base_ : declaration) : bool :=
  existsb (fun b => declaration_eqb (related_class b) base_
                    && negb (access_eqb (access_type b) PRIVATE)) bases.

(** The shapes accepted at the end of [__test_derived_to_based]. *)
Definition derived_to_based_shapes (base_ derived : type_t) : M bool :=
  if is_both_declarated base_ derived then Ok true
  else
  c <- and_then (is_pointer derived && is_pointer base_)
         (base_base <- base base_ ;;
          derived_base <- base derived ;;
          Ok (is_both_declarated base_base derived_base)) ;;
  if c then Ok true
  else
  c <- and_then (is_pointer derived && is_pointer base_)
         (derived_base <- base derived ;;
          and_then (is_const derived_base)
            (base_base <- base base_ ;;
             and_then (is_const base_base)
               (base_base_base <- base base_base ;;
                derived_base_base <- base derived_base ;;
                Ok (is_both_declarated base_base_base derived_base_base)))) ;;
  if c then Ok true
  else
  c <- and_then (is_pointer derived && is_pointer base_)
         (derived_base <- base derived ;;
          and_then (is_const derived_base)
            (base_base <- base base_ ;;
             base_base_base <- base base_base ;;
             Ok (is_both_declarated base_base_base derived_base))) ;;
  if c then Ok true
  else
  c <- and_then (is_reference derived && is_reference base_)
         (base_base <- base base_ ;;
          derived_base <- base derived ;;
          Ok (is_both_declarated base_base derived_base)) ;;
  if c then Ok true
  else
  c <- and_then (is_reference derived && is_reference base_)
         (derived_base <- base derived ;;
          and_then (is_const derived_base)
            (base_base <- base base_ ;;
             and_then (is_const base_base)
               (base_base_base <- base base_base ;;
                derived_base_base <- base derived_base ;;
                Ok (is_both_declarated base_base_base derived_base_base)))) ;;
  if c then Ok true
  else
  c <- and_then (is_reference derived && is_reference base_)
         (derived_base <- base derived ;;
          and_then (is_const derived_base)
            (base_base <- base base_ ;;
             base_base_base <- base base_base ;;
             Ok (is_both_declarated base_base_base derived_base))) ;;
  if c then Ok true
  else Ok false.

(** [__test_derived_to_based(source, target)] *)
Definition test_derived_to_based (source target : type_t) : M bool :=
  let derived := base_type source in
  let base_ := base_type target in
  match derived, base_ with
  | declarated_t (class_t derived_id), declarated_t (class_t base_id) =>
      let base_ := class_t base_id in
      let derived := class_t derived_id in
      related <- is_base_and_derived st base_ (one_class derived) ;;
      if negb related then Ok false
      else
        bases <- recursive_bases_of st derived ;;
        if negb (has_non_private_base bases base_) then Ok false
        else derived_to_based_shapes target source
  | _, _ => Ok false
  end.

(** The conversion through a casting operator of the source class, together
    with the enum-to-fundamental rule that shares its guard. *)
Definition source_rules (source target : type_t) (rest : outcome bool)
  : outcome bool :=
  match source with
  | declarated_t source_declaration =>
      if match source_declaration with enumeration_t _ => true | _ => false end
         && is_fundamental target && negb (is_void target)
      then Some (Ok true)
      else
        match source_declaration with
        | class_t source_inst =>
            let casting_operators :=
              find_all_casting_operators
                (declarations (class_of_id st source_inst)) in
            return_True_if_any
              (fun operator => is_convertible_rec (return_type operator) target)
              casting_operators rest
        | _ => rest
        end
  | _ => rest
  end.

(** The constructors the last rule goes through: [1 != len(arguments)] is
    skipped with [continue]. *)
Definition single_argument (c : constructor_t) : bool :=
  List.length (arguments c) =? 1.

(** [constructor.arguments[0].decl_type] *)
Definition first_argument_type (c : constructor_t) : type_t :=
  match arguments c with
  | a :: _ => decl_type a
  | [] => fundamental_t void_t
  end.

(** The conversion through a constructor of the target class; what is left
    of the method after it is [return False]. *)
Definition constructor_rule (source target : type_t) : outcome bool :=
  match target with
  | declarated_t (class_t target_id) =>
      let constructors :=
        find_all_constructors (declarations (class_of_id st target_id)) in
      return_True_if_any
        (fun constructor =>
           is_convertible_rec source (first_argument_type constructor))
        (filter single_argument constructors)
        (Some (Ok false))
  | _ => Some (Ok false)
  end.

(** The method [__is_convertible_t.is_convertible] on the normalized
    operands. *)
Definition is_convertible_method (source target : type_t) : outcome bool :=
  return_True_if (Some (test_trivial source target))
  (return_False_if
     (Some (a <- is_array source ;; or_else a (is_array target)))
  (return_True_if (Some (test_const_x_ref__to__x source target))
  (return_True_if (test_const_ref_x__to__y source target)
  (return_True_if (Some (test_ref_x__to__x source target))
  (return_True_if (test_ref_x__to__y source target)
  (return_True_if (Some (test_fundamental__to__fundamental source target))
  (return_True_if
     (Some (test_pointer_to_func_or_mv__to__func_or_mv source target))
  (return_True_if (Some (test_derived_to_based source target))
  (source_rules source target
     (constructor_rule source target)))))))))).

(** [is_convertible(source, target)]: builds [__is_convertible_t(source,
    target)], which normalizes both operands, and calls its method. *)
Definition is_convertible_body (source target : type_t) : outcome bool :=
  is_convertible_method (normalize source) (normalize target).

End Convertible.

(** [is_convertible] with a budget on the depth of the recursion. *)
Fixpoint is_convertible (st : store) (budget : nat) (source target : type_t)
  : outcome bool :=
  match budget with
  | O => None
  | S budget' =>
      is_convertible_body st (is_convertible st budget') source target
  end.

(** ** Internal types: [impl_details.find_value_type] and
    [internal_type_traits.get_by_name] *)

Definition string_equivalences : list string :=
  [ ("::std::basic_string<char,std::char_traits<char>," ++
     "std::allocator<char> >")%string;
    ("::std::basic_string<char, std::char_traits<char>, " ++
     "std::allocator<char> >")%string;
    "::std::basic_string<char>"%string; "::std::string"%string ].

Definition wstring_equivalences : list string :=
  [ ("::std::basic_string<wchar_t,std::char_traits<wchar_t>," ++
     "std::allocator<wchar_t> >")%string;
    ("::std::basic_string<wchar_t, std::char_traits<wchar_t>, " ++
     "std::allocator<wchar_t> >")%string;
    "::std::basic_string<wchar_t>"%string; "::std::wstring"%string ].

Definition string_in (s : string) (l : list string) : bool :=
  existsb (String.eqb s) l.

(** [is_std_string(type_)] and [is_std_wstring(type_)] on a string, the
    branch [utils.is_str(type_)]. *)
Definition is_std_string (type_ : string) : bool :=
  string_in type_ string_equivalences.

Definition is_std_wstring (type_ : string) : bool :=
  string_in type_ wstring_equivalences.

(** [s.startswith(p)] *)
Definition startswith (p s : string) : bool := String.prefix p s.

(** [s[n:]] *)
Definition drop (n : nat) (s : string) : string :=
  String.substring n (String.length s - n) s.

(** [s.endswith('*')] *)
Definition endswith_star (s : string) : bool :=
  String.eqb (drop (String.length s - 1) s) "*"%string.

(** [s[:-1]] *)
Definition drop_last (s : string) : string :=
  String.substring 0 (String.length s - 1) s.

(** What [find_value_type] returns: an object, or [const_t]/[pointer_t]
    built around a declaration that is not a class. *)
Inductive found_t : Type :=
| found_obj (o : obj)
| found_const (f : found_t)
| found_pointer (f : found_t).

(** [if isinstance(found, class_declaration.class_types):
    found = cpptypes.declarated_t(found)] *)
Definition wrap_declarated (f : found_t) : found_t :=
  match f with
  | found_obj (D (class_t id)) => found_obj (T (declarated_t (class_t id)))
  | found_obj (D (class_declaration_t id)) =>
      found_obj (T (declarated_t (class_declaration_t id)))
  | _ => f
  end.

Definition wrap_const (f : found_t) : found_t :=
  match f with
  | found_obj (T t) => found_obj (T (const_t t))
  | _ => found_const f
  end.

Definition wrap_pointer (f : found_t) : found_t :=
  match f with
  | found_obj (T t) => found_obj (T (pointer_t t))
  | _ => found_pointer f
  end.

(** [global_ns.decls(name=..., function=lambda decl: not isinstance(decl,
    calldef.calldef_t), allow_empty=True)] *)
Fixpoint decls (global_ns : namespace_t) (name_ : string) : list obj :=
  match global_ns with
  | [] => []
  | (n, ns_decl o) :: rest =>
      if String.eqb n name_ then o :: decls rest name_ else decls rest name_
  | (_, ns_calldef) :: rest => decls rest name_
  end.

(** [global_ns.typedef(name)]: the one typedef of that name; none or several
    is an error. *)
Definition ns_typedef (global_ns : namespace_t) (name_ : string) : M obj :=
  match filter (fun o => match o with T (alias_t _ _) => true | _ => false end)
          (decls global_ns name_) with
  | [o] => Ok o
  | _ => Raise RuntimeError
  end.

(** [cls.typedef(name, recursive=False)] on the members of a class. *)
Definition class_typedef (members : list member) (name_ : string)
  : M typedef_t :=
  match filter (fun m => match m with
                         | typedef t => String.eqb (typedef_name t) name_
                         | _ => false
                         end) members with
  | [typedef t] => Ok t
  | _ => Raise RuntimeError
  end.

Section InternalTypes.

(** [cpptypes.FUNDAMENTAL_TYPES], the table of the fundamental types by
    spelling, and [templates.args], which splits a template instantiation
    name into the spellings of its arguments. *)
Variable FUNDAMENTAL_TYPES : string -> option type_t.
Variable templates_args : string -> list string.

(** [impl_details.find_value_type(global_ns, value_type_str)]; the recursive
    call is on a shorter string and [budget] bounds its depth. *)
Fixpoint find_value_type (budget : nat) (global_ns : namespace_t)
  (value_type_str : string) : outcome (option found_t) :=
  match budget with
  | O => None
  | S budget' =>
      let value_type_str :=
        if negb (startswith "::" value_type_str)
        then ("::" ++ value_type_str)%string else value_type_str in
      let found := decls global_ns value_type_str in
      match found with
      | [] =>
          let no_global_ns_value_type_str := drop 2 value_type_str in
          match FUNDAMENTAL_TYPES no_global_ns_value_type_str with
          | Some t => Some (Ok (Some (found_obj (T t))))
          | None =>
              if is_std_string value_type_str then
                Some (string_ <- ns_typedef global_ns "::std::string" ;;
                      Ok (Some (found_obj (remove_declarated string_))))
              else if is_std_wstring value_type_str then
                Some (string_ <- ns_typedef global_ns "::std::wstring" ;;
                      Ok (Some (found_obj (remove_declarated string_))))
              else
                let value_type_str := no_global_ns_value_type_str in
                let has_const := startswith "const " value_type_str in
                let value_type_str :=
                  if has_const then drop 6 value_type_str
                  else value_type_str in
                let has_pointer := endswith_star value_type_str in
                let value_type_str :=
                  if has_pointer then drop_last value_type_str
                  else value_type_str in
                if has_const || has_pointer then
                  match find_value_type budget' global_ns value_type_str with
                  | None => None
                  | Some (Raise e) => Some (Raise e)
                  | Some (Ok None) => Some (Ok None)
                  | Some (Ok (Some found)) =>
                      let found := wrap_declarated found in
                      let found :=
                        if has_const then wrap_const found else found in
                      let found :=
                        if has_pointer then wrap_pointer found else found in
                      Some (Ok (Some found))
                  end
                else Some (Ok None)
          end
      | [found0] => Some (Ok (Some (found_obj found0)))
      | _ => Some (Ok None)
      end
  end.

Variable st : store.
Variable global_ns : namespace_t.

(** [internal_type_traits.get_by_name(type_, name)].  In the first branch
    [class_traits.declaration_class] is the class [class_t] itself, so [cls]
    is a new class named [type_] with no member, in which [typedef] is
    looked up.  In the second [cls.top_parent] is the global namespace. *)
Definition get_by_name (budget : nat) (type_ : type_t) (name_ : string)
  : outcome found_t :=
  match is_class type_ with
  | Raise e => Some (Raise e)
  | Ok true =>
      Some (t <- class_typedef [] name_ ;;
            Ok (found_obj (remove_declarated (T (typedef_decl_type t)))))
  | Ok false =>
      match is_class_declaration type_ with
      | Raise e => Some (Raise e)
      | Ok true =>
          match apply_sequence type_ with
          | Raise e => Some (Raise e)
          | Ok (D (class_declaration_t id)) =>
              match templates_args (class_declaration_name st id) with
              | [] => Some (Raise IndexError)
              | value_type_str :: _ =>
                  match find_value_type budget global_ns value_type_str with
                  | None => None
                  | Some (Raise e) => Some (Raise e)
                  | Some (Ok (Some ref)) => Some (Ok ref)
                  | Some (Ok None) => Some (Raise RuntimeError)
                  end
              end
          | Ok _ => Some (Raise AttributeError)
          end
      | Ok false => Some (Raise RuntimeError)
      end
  end.

End InternalTypes.

(** ** A small declaration store used in the examples

    [class Base] has the copy constructor the compiler synthesizes;
    [class Derived : public Base] declares [Derived(const Base&)];
    [class Hidden : private Base]; [class A] declares [A(B)] and [class B]
    declares [B(A)]. *)

Definition ex_int : type_t := fundamental_t int_t.

Definition ex_Base : type_t := declarated_t (class_t 0).
Definition ex_Derived : type_t := declarated_t (class_t 1).
Definition ex_Hidden : type_t := declarated_t (class_t 2).
Definition ex_A : type_t := declarated_t (class_t 3).
Definition ex_B : type_t := declarated_t (class_t 4).

Definition ex_constructor (artificial : bool) (arg : type_t) : member :=
  constructor {| arguments := [ {| arg_name := "arg"; decl_type := arg |} ];
                 ctor_access_type := PUBLIC;
                 ctor_is_artificial := artificial |}.

Definition ex_class (n : string) (bases : list hierarchy_info_t)
  (members : list member) : class_def :=
  {| name := n; class_type := CLASS; is_abstract := false;
     recursive_bases := bases; declarations := members |}.

Definition ex_base_info (access : ACCESS_TYPES) : hierarchy_info_t :=
  {| related_class := class_t 0; access_type := access; is_virtual := false |}.

Definition ex_classes (id : nat) : class_def :=
  match id with
  | 0 => ex_class "Base" []
           [ex_constructor true (reference_t (const_t ex_Base))]
  | 1 => ex_class "Derived" [ex_base_info PUBLIC]
           [ex_constructor false (reference_t (const_t ex_Base))]
  | 2 => ex_class "Hidden" [ex_base_info PRIVATE] []
  | 3 => ex_class "A" [] [ex_constructor false ex_B]
  | 4 => ex_class "B" [] [ex_constructor false ex_A]
  | _ => ex_class "" [] []
  end.

Definition ex_store : store :=
  {| class_of_id := ex_classes;
     find_class_by_class_declaration := fun _ => None_t;
     class_declaration_name := fun _ => "shared_ptr<Foo>"%string |}.


(** The character, boolean and integer kinds of [kind]. *)
Definition integral_kind (k : kind) : bool :=
  match k with
  | void_t | float_t | double_t | long_double_t => false
  | _ => true
  end.

(** [__normalize] leaves a declaration at the base of the type: the type
    does not hold [None_t] there already, and a forward class declaration
    there has a definition in the store.  A member variable type is left
    out: the type of its variable, which [__normalize] would have to look
    at, is not part of the model. *)
Definition holds_declaration (st : store) (type_ : type_t) : bool :=
  match base_type type_ with
  | declarated_t None_t => false
  | declarated_t (class_declaration_t id) =>
      negb (declaration_eqb (find_class_by_class_declaration st id) None_t)
  | member_variable_type_t _ => false
  | _ => true
  end.

(** An element type that is itself not qualified, not an array, not a
    reference and not an alias: a fundamental, pointer, function, member
    variable or declared type. *)
Definition plain_element (b : type_t) : bool :=
  match b with
  | const_t _ | volatile_t _ | reference_t _ | array_t _ _ | alias_t _ _ =>
      false
  | _ => true
  end.

(** The pairs on which one call [is_convertible(source, target)] may call
    [is_convertible] again.  When the source is a reference: its referent
    against [int] ([__test_ref_x__to__y], behind [is_reference(source)]),
    and, when the referent is const, the base of the referent against [int]
    ([__test_const_ref_x__to__y], behind [is_reference(source)] and
    [is_const(source.base)]).  The return type of each casting operator of
    the source class against the target.  The source against the parameter
    of each single-argument constructor of the target class. *)
Definition callees (st : store) (source target : type_t)
  : list (type_t * type_t) :=
  let source := normalize st source in
  let target := normalize st target in
  (if is_reference source then
     match base source with
     | Ok source_base =>
         (source_base, fundamental_t int_t) ::
         (if is_const source_base then
            match base source_base with
            | Ok source_base_base => [(source_base_base, fundamental_t int_t)]
            | Raise _ => []
            end
          else [])
     | Raise _ => []
     end
   else []) ++
  match source with
  | declarated_t (class_t source_inst) =>
      map (fun operator => (return_type operator, target))
        (find_all_casting_operators
           (declarations (class_of_id st source_inst)))
  | _ => []
  end ++
  match target with
  | declarated_t (class_t target_id) =>
      map (fun constructor => (source, first_argument_type constructor))
        (filter single_argument
           (find_all_constructors (declarations (class_of_id st target_id))))
  | _ => []
  end.

(** Every chain of such calls that starts at [(source, target)] is shorter
    than [depth]. *)
Fixpoint descent_bounded (st : store) (depth : nat) (source target : type_t)
  : bool :=
  match depth with
  | O => false
  | S depth' =>
      forallb (fun p => descent_bounded st depth' (fst p) (snd p))
        (callees st source target)
  end.

(** [value_type_str] as [find_value_type] looks it up: with the global
    namespace prefix. *)
Definition with_global_prefix (value_type_str : string) : string :=
  if negb (startswith "::" value_type_str)
  then ("::" ++ value_type_str)%string else value_type_str.

(** An instance of the two tables, and a global namespace in which [::Bar]
    names one class, [::Dup] names a class and an enumeration, and [Foo]
    names nothing.  The forward declaration of the store is
    [shared_ptr<Foo>]. *)
Definition ex_FUNDAMENTAL_TYPES (spelling : string) : option type_t :=
  if String.eqb spelling "int" then Some (fundamental_t int_t)
  else if String.eqb spelling "char" then Some (fundamental_t char_t)
  else if String.eqb spelling "double" then Some (fundamental_t double_t)
  else None.

Definition ex_templates_args (decl_string : string) : list string :=
  match String.index 0 "<" decl_string with
  | Some i =>
      [String.substring (S i) (String.length decl_string - i - 2) decl_string]
  | None => []
  end.

Definition ex_global_ns : namespace_t :=
  [ ("::Bar"%string, ns_decl (D (class_t 0)));
    ("::Dup"%string, ns_decl (D (class_t 3)));
    ("::Dup"%string, ns_decl (D (enumeration_t 0)));
    ("::Bar"%string, ns_calldef) ].

(** ** Declarative counterparts used in the properties *)

(** [const_t] or [volatile_t]. *)
Definition is_cv_class (c : pyclass) : bool :=
  match c with cls_const_t | cls_volatile_t => true | _ => false end.

Definition pyclass_eqb (c d : pyclass) : bool :=
  if pyclass_eq_dec c d then true else false.

(** The layers of a type, outermost first, show [main] under no qualifier,
    under one qualifier, or under one [const] and one [volatile] in either
    order. *)
Definition under_cv (main : pyclass) (layers : list pyclass) : bool :=
  match layers with
  | [] => false
  | c0 :: rest0 =>
      issubclass c0 main ||
      (is_cv_class c0 &&
       match rest0 with
       | [] => false
       | c1 :: rest1 =>
           issubclass c1 main ||
           (is_cv_class c1 && negb (pyclass_eqb c0 c1) &&
            match rest1 with
            | [] => false
            | c2 :: _ => issubclass c2 main
            end)
       end)
  end.


(** No [alias_t] occurs in the type expression. *)
Fixpoint alias_free (t : type_t) : bool :=
  match t with
  | alias_t _ _ => false
  | const_t b | volatile_t b | pointer_t b | reference_t b | array_t b _ =>
      alias_free b
  | _ => true
  end.


(** [__normalize] below a wrapper: the forward declaration at the innermost
    layer is replaced, the outermost alias is not looked at. *)
Definition normalize_inner (st : store) (type_ : type_t) : type_t :=
  match base_type type_ with
  | declarated_t (class_declaration_t id) =>
      set_base_type_declaration type_ (find_class_by_class_declaration st id)
  | _ => type_
  end.


Definition kind_eqb (k1 k2 : kind) : bool :=
  if kind_eq_dec k1 k2 then true else false.

Definition is_void_kind (k : kind) : bool :=
  match k with void_t => true | _ => false end.



(** A leaf of the type algebra: a fundamental, function or declared type. *)
Definition is_leaf_type (t : type_t) : bool :=
  match t with
  | fundamental_t _ | free_function_type_t _ | member_function_type_t _
  | declarated_t _ => true
  | _ => false
  end.


(** ** The copy constructor test over an alias resolution

    [type_traits_utils.remove_alias] is not among the sources at hand, and
    how far it resolves the aliases inside a type decides what
    [is_copy_constructor] answers on a parameter such as [const B_t&].  The
    test is therefore also given with the resolution left open:
    [remove_alias_] stands for [type_traits_utils.remove_alias] and
    [is_const_] for [is_const], which calls it. *)

Section AliasResolution.

Variable remove_alias_ : type_t -> type_t.
Variable is_const_ : type_t -> bool.

(** [is_copy_constructor(args, parent)], line by line. *)
Definition is_copy_constructor_over
  (args : list argument_t) (parent : declaration) : M bool :=
  if negb (List.length args =? 1) then Ok false
  else
    match args with
    | [] => Raise IndexError
    | arg :: _ =>
        if negb (is_compound_t (decl_type arg)) then Ok false
        else if negb (isinstance (remove_alias_ (decl_type arg)) cls_reference_t)
        then Ok false
        else
          arg_base <- base (decl_type arg) ;;
          if negb (is_const_ arg_base) then Ok false
          else
            let un_aliased := remove_alias_ arg_base in
            un_aliased_base <- base un_aliased ;;
            match un_aliased_base with
            | declarated_t d => Ok (declaration_eqb d parent)
            | _ => Ok false
            end
    end.

(** What the test relies on: the resolution keeps the outermost layer of a
    compound type, it leaves a [declarated_t] as it is (a typedef is an
    [alias_t]), and [is_const_] is [is_const] written over it (lines
    228-237). *)
Record alias_resolution : Prop := {
  resolution_keeps_compound :
    forall t, is_compound_t t = true ->
              class_of (remove_alias_ t) = class_of t;
  resolution_keeps_declarated :
    forall d, remove_alias_ (declarated_t d) = declarated_t d;
  is_const_over_resolution :
    forall t, is_const_ t =
              match remove_alias_ t with
              | const_t _ => true
              | volatile_t b => is_const_ b
              | array_t b _ => is_const_ b
              | _ => false
              end
}.

End AliasResolution.

(** Full alias transparency, "the fixed point" of the spec's (4.1) single
    step: every alias is resolved, at every level of the type. *)
Fixpoint resolve_aliases (type_ : type_t) : type_t :=
  match type_ with
  | alias_t _ aliased => resolve_aliases aliased
  | const_t b => const_t (resolve_aliases b)
  | volatile_t b => volatile_t (resolve_aliases b)
  | pointer_t b => pointer_t (resolve_aliases b)
  | reference_t b => reference_t (resolve_aliases b)
  | array_t b n => array_t (resolve_aliases b) n
  | _ => type_
  end.

(** [is_const] over the full resolution. *)
Definition is_const_resolved (type : type_t) : bool :=
  is_const (resolve_aliases type).

(** ** Operators: [is_unary_operator] and [is_binary_operator] *)

(** What the two predicates look at in a declaration: whether it is an
    operator at all, and then its symbol, its arguments and whether it is a
    member operator. *)
Record operator_t : Type := {
  symbol : string;
  oper_arguments : list argument_t;
  is_member_operator_t : bool
}.

Inductive calldef_t : Type :=
| an_operator (o : operator_t)
| not_an_operator.

Definition unary_symbols : list string :=
  ["!"; "&"; "~"; "*"; "+"; "++"; "-"; "--"]%string.

Definition binary_symbols : list string :=
  [","; "()"; "[]"; "!="; "%"; "%="; "&"; "&&"; "&="; "*"; "*="; "+";
   "+="; "-"; "-="; "->"; "->*"; "/"; "/="; "<"; "<<"; "<<="; "<="; "=";
   "=="; ">"; ">="; ">>"; ">>="; "^"; "^="; "|"; "|="; "||"]%string.

(** [isinstance(t, cpptypes.int_t)] *)
Definition is_int_t (t : type_t) : bool :=
  match t with
  | fundamental_t int_t => true
  | _ => false
  end.

(** [isinstance(oper.arguments[i].decl_type, cpptypes.int_t)], read where
    the argument exists. *)
Definition argument_is_int (args : list argument_t) (i : nat) : bool :=
  match nth_error args i with
  | Some a => is_int_t (decl_type a)
  | None => false
  end.

(** [is_unary_operator(oper)] *)
Definition is_unary_operator (oper : calldef_t) : bool :=
  match oper with
  | not_an_operator => false
  | an_operator oper =>
      if negb (string_in (symbol oper) unary_symbols) then false
      else if is_member_operator_t oper then
        if 0 =? List.length (oper_arguments oper) then true
        else if string_in (symbol oper) ["++"; "--"]%string
                && argument_is_int (oper_arguments oper) 0 then true
        else false
      else
        if 1 =? List.length (oper_arguments oper) then true
        else if string_in (symbol oper) ["++"; "--"]%string
                && (2 =? List.length (oper_arguments oper))
                && argument_is_int (oper_arguments oper) 1 then true
        else false
  end.

(** [is_binary_operator(oper)] *)
Definition is_binary_operator (oper : calldef_t) : bool :=
  match oper with
  | not_an_operator => false
  | an_operator oper =>
      if negb (string_in (symbol oper) binary_symbols) then false
      else if is_member_operator_t oper then
        if 1 =? List.length (oper_arguments oper) then true else false
      else
        if 2 =? List.length (oper_arguments oper) then true else false
  end.

(** ** The stream spellings *)

Definition ostream_equivalences : list string :=
  [ "::std::basic_ostream<char, std::char_traits<char> >"%string;
    "::std::basic_ostream<char,std::char_traits<char> >"%string;
    "::std::basic_ostream<char>"%string; "::std::ostream"%string ].

Definition wostream_equivalences : list string :=
  [ "::std::basic_ostream<wchar_t, std::char_traits<wchar_t> >"%string;
    "::std::basic_ostream<wchar_t,std::char_traits<wchar_t> >"%string;
    "::std::basic_ostream<wchar_t>"%string; "::std::wostream"%string ].

(** [is_std_ostream(type_)] and [is_std_wostream(type_)] on a string. *)
Definition is_std_ostream (type_ : string) : bool :=
  string_in type_ ostream_equivalences.

Definition is_std_wostream (type_ : string) : bool :=
  string_in type_ wostream_equivalences.




(** ** Copy semantics: [is_noncopyable] *)

(** [is_union(type_)] *)
Definition is_union (st : store) (type_ : obj) : M bool :=
  c <- is_class type_ ;;
  if negb c then Ok false
  else
    decl <- apply_sequence type_ ;;
    match decl with
    | D (class_t id) =>
        Ok (match class_type (class_of_id st id) with
            | UNION => true
            | _ => false
            end)
    | _ => Raise AttributeError
    end.

(** Modelled from the spec: the property [constructor_t.is_copy_constructor]
    is not among the sources at hand.  Spec 4.5 gives one notion of "matches
    as copy constructor", the test [is_copy_constructor] above.  The
    constructors [c] with [not c.is_copy_constructor and
    c.access_type == 'public'], as [has_public_constructor] selects them. *)
Fixpoint public_non_copy_constructors (parent : declaration)
  (ctors : list constructor_t) : M (list constructor_t) :=
  match ctors with
  | [] => Ok []
  | c :: rest =>
      is_copy <- is_copy_constructor (arguments c) parent ;;
      rest' <- public_non_copy_constructors parent rest ;;
      if negb is_copy && access_eqb (ctor_access_type c) PUBLIC
      then Ok (c :: rest') else Ok rest'
  end.

(** [has_public_constructor(class_)]: the list of these constructors, or
    [None] when it is empty. *)
Definition has_public_constructor (st : store) (class_ : obj)
  : M (option (list constructor_t)) :=
  class_ <- apply_sequence class_ ;;
  match class_ with
  | D (class_t id) =>
      decls <- public_non_copy_constructors (class_t id)
                 (find_all_constructors (declarations (class_of_id st id))) ;;
      match decls with
      | [] => Ok None
      | _ => Ok (Some decls)
      end
  | _ => Raise AttributeError
  end.

Section CopySemantics.

Variable st : store.

(** What [class_declaration.class_t] gives and the store does not hold: the
    full name of a declaration, the destructors of a class (by access), its
    member operators (symbol and access) and the names of its member
    variables of a noncopyable type ([find_noncopyable_vars]). *)
Variable decl_string : declaration -> string.
Variable destructors : nat -> list ACCESS_TYPES.
Variable mem_opers : nat -> list (string * ACCESS_TYPES).
Variable find_noncopyable_vars : nat -> list string.

(** [has_destructor(class_)]: the first destructor, or [None]. *)
Definition has_destructor (class_ : obj) : M (option ACCESS_TYPES) :=
  class_ <- apply_sequence class_ ;;
  match class_ with
  | D (class_t id) => Ok (hd_error (destructors id))
  | _ => Raise AttributeError
  end.

(** [has_public_assign(class_)] *)
Definition has_public_assign (class_ : obj) : M bool :=
  class_ <- apply_sequence class_ ;;
  match class_ with
  | D (class_t id) =>
      Ok (existsb (fun o => String.eqb (fst o) "=" && access_eqb (snd o) PUBLIC)
            (mem_opers id))
  | _ => Raise AttributeError
  end.

(** [has_public_destructor(type)]: [d and d.access_type == 'public'] *)
Definition has_public_destructor (type : obj) : M bool :=
  d <- has_destructor type ;;
  match d with
  | Some access => Ok (access_eqb access PUBLIC)
  | None => Ok false
  end.

(** [__is_noncopyable_single(class_)], on a class declaration. *)
Definition is_noncopyable_single (class_ : declaration) : M bool :=
  copy_constructor <- has_copy_constructor st (D class_) ;;
  all_four <-
    match copy_constructor with
    | None => Ok false
    | Some _ =>
        public_constructor <- has_public_constructor st (D class_) ;;
        match public_constructor with
        | None => Ok false
        | Some _ =>
            public_assign <- has_public_assign (D class_) ;;
            if public_assign then has_public_destructor (D class_)
            else Ok false
        end
    end ;;
  if all_four then Ok false
  else
    match class_ with
    | class_t id =>
        match find_noncopyable_vars id with
        | [] => Ok false
        | _ => Ok true
        end
    | _ => Raise AttributeError
    end.

(** The loop of [is_noncopyable] over [class_decl.recursive_bases]: [true]
    when it leaves the function with [return True]. *)
Fixpoint base_makes_noncopyable (bases : list hierarchy_info_t) : M bool :=
  match bases with
  | [] => Ok false
  | base_desc :: rest =>
      let related := related_class base_desc in
      if string_in (decl_string related)
           ["::boost::noncopyable"; "::boost::noncopyable_::noncopyable"]%string
      then Ok true
      else
        copy_constructor <- has_copy_constructor st (D related) ;;
        in_block <-
          match copy_constructor with
          | Some _ => Ok false
          | None =>
              match related with
              | class_t id =>
                  base_copy_ <- find_copy_constructor st id ;;
                  match base_copy_ with
                  | Some c => Ok (access_eqb (ctor_access_type c) PRIVATE)
                  | None => is_noncopyable_single related
                  end
              | _ => Raise AttributeError
              end
          end ;;
        if in_block then Ok true
        else
          single <- is_noncopyable_single related ;;
          if single then Ok true else base_makes_noncopyable rest
  end.

(** [is_noncopyable(class_)] *)
Definition is_noncopyable (class_ : obj) : M bool :=
  class_decl <- apply_sequence class_ ;;
  union <- is_union st class_ ;;
  if union then Ok false
  else
    match class_decl with
    | D (class_t id) =>
        if is_abstract (class_of_id st id) then Ok true
        else
          copy_ <- find_copy_constructor st id ;;
          if match copy_ with
             | Some c => access_eqb (ctor_access_type c) PUBLIC
                         && negb (ctor_is_artificial c)
             | None => false
             end
          then Ok false
          else
            from_base <-
              base_makes_noncopyable (recursive_bases (class_of_id st id)) ;;
            if from_base then Ok true
            else
              copy_constructor <- has_copy_constructor st class_decl ;;
              match copy_constructor with
              | None => Ok true
              | Some _ =>
                  public_constructor <- has_public_constructor st class_decl ;;
                  match public_constructor with
                  | None => Ok true
                  | Some _ =>
                      destructor <- has_destructor class_decl ;;
                      public_destructor <-
                        match destructor with
                        | Some _ => has_public_destructor class_decl
                        | None => Ok true
                        end ;;
                      if negb public_destructor then Ok true
                      else is_noncopyable_single (class_t id)
                  end
              end
    | _ => Raise AttributeError
    end.

End CopySemantics.


(** A second example: [class noncopyable] of namespace [boost] with a private
    copy constructor; [class Resource : noncopyable]; [union Bits];
    an abstract [class Shape]; [class Value : noncopyable] that declares a
    public [Value(const Value&)]. *)
Definition ex_copy_constructor (access : ACCESS_TYPES) (artificial : bool)
  (id : nat) : member :=
  constructor
    {| arguments := [ {| arg_name := "other";
                         decl_type :=
                           reference_t (const_t (declarated_t (class_t id))) |} ];
       ctor_access_type := access;
       ctor_is_artificial := artificial |}.

Definition ex_noncopyable_base : hierarchy_info_t :=
  {| related_class := class_t 0; access_type := PRIVATE; is_virtual := false |}.

Definition ex_copy_classes (id : nat) : class_def :=
  match id with
  | 0 => {| name := "noncopyable"; class_type := CLASS; is_abstract := false;
            recursive_bases := [];
            declarations := [ex_copy_constructor PRIVATE false 0] |}
  | 1 => {| name := "Resource"; class_type := CLASS; is_abstract := false;
            recursive_bases := [ex_noncopyable_base];
            declarations := [ex_copy_constructor PUBLIC true 1] |}
  | 2 => {| name := "Bits"; class_type := UNION; is_abstract := true;
            recursive_bases := []; declarations := [] |}
  | 3 => {| name := "Shape"; class_type := CLASS; is_abstract := true;
            recursive_bases := []; declarations := [] |}
  | _ => {| name := "Value"; class_type := STRUCT; is_abstract := false;
            recursive_bases := [ex_noncopyable_base];
            declarations := [ex_copy_constructor PUBLIC false id] |}
  end.

Definition ex_copy_store : store :=
  {| class_of_id := ex_copy_classes;
     find_class_by_class_declaration := fun _ => None_t;
     class_declaration_name := fun _ => "noncopyable"%string |}.

Definition ex_decl_string (d : declaration) : string :=
  match d with
  | class_t 0 => "::boost::noncopyable"
  | class_t id => String.append "::" (name (ex_copy_classes id))
  | _ => ""
  end.

(** * Properties *)

(** ** The equations of the recursive predicates *)

Lemma is_const_eq (type : type_t) :
  is_const type =
  match remove_alias type with
  | const_t _ => true
  | volatile_t b => is_const b
  | array_t b _ => is_const b
  | _ => false
  end.
Proof. destruct type; reflexivity. Qed.

Lemma is_volatile_eq (type : type_t) :
  is_volatile type =
  match remove_alias type with
  | volatile_t _ => true
  | const_t b => is_volatile b
  | array_t b _ => is_volatile b
  | _ => false
  end.
Proof. destruct type; reflexivity. Qed.

Lemma decompose_type_remove_alias (t : type_t) :
  decompose_type (remove_alias t) = decompose_type t.
Proof. destruct t; reflexivity. Qed.

Lemma decompose_type_not_nil (t : type_t) : decompose_type t <> [].
Proof. induction t; simpl; try discriminate; assumption. Qed.

Lemma does_match_definition_remove_alias t main secondary :
  does_match_definition (remove_alias t) main secondary =
  does_match_definition t main secondary.
Proof.
  unfold does_match_definition.
  rewrite decompose_type_remove_alias.
  pose proof (decompose_type_not_nil t) as Hnil.
  destruct (decompose_type t) as [|x [|y l]]; [congruence| |]; reflexivity.
Qed.

Lemma is_pointer_remove_alias (t : type_t) :
  is_pointer (remove_alias t) = is_pointer t.
Proof.
  unfold is_pointer. now rewrite !does_match_definition_remove_alias.
Qed.

Lemma type_eqb_refl (t : type_t) : type_eqb t t = true.
Proof. unfold type_eqb. destruct (type_eq_dec t t); congruence. Qed.

Lemma type_eqb_eq (x y : type_t) : type_eqb x y = true <-> x = y.
Proof. unfold type_eqb. destruct (type_eq_dec x y); split; congruence. Qed.

Lemma declaration_eqb_eq (x y : declaration) :
  declaration_eqb x y = true <-> x = y.
Proof.
  unfold declaration_eqb. destruct (declaration_eq_dec x y); split; congruence.
Qed.

(** ** C6: is_integral and the two orders of the qualifiers *)

(** C6.  [is_integral] is true on every character, boolean and integer kind
    bare, under [const], under [volatile] and under [volatile_t(const_t(k))],
    and false on the other kinds; but on the other nesting order,
    [const_t(volatile_t(k))], it is false for every kind, although
    [is_fundamental] accepts that order. *)
Theorem is_integral_misses_const_of_volatile (k : kind) :
  is_integral (fundamental_t k) = integral_kind k /\
  is_integral (const_t (fundamental_t k)) = integral_kind k /\
  is_integral (volatile_t (fundamental_t k)) = integral_kind k /\
  is_integral (volatile_t (const_t (fundamental_t k))) = integral_kind k /\
  is_integral (const_t (volatile_t (fundamental_t k))) = false /\
  is_fundamental (const_t (volatile_t (fundamental_t k))) = true.
Proof. destruct k; repeat split; vm_compute; reflexivity. Qed.

(** ** C8: wrapping and unwrapping *)

Lemma is_pointer_pointer_t (T : type_t) : is_pointer (pointer_t T) = true.
Proof. reflexivity. Qed.

Lemma remove_cv_unqualified (T : type_t) :
  is_const (remove_alias T) = false ->
  is_volatile (remove_alias T) = false ->
  remove_cv T = Ok T.
Proof. intros Hc Hv. unfold remove_cv. now rewrite Hc, Hv. Qed.

Lemma counter_remove_pointer_of_function :
  remove_pointer (pointer_t (free_function_type_t "void (*)( int )"))
  = Ok (pointer_t (free_function_type_t "void (*)( int )"))
  /\ remove_pointer (pointer_t (free_function_type_t "void (*)( int )"))
     <> Ok (free_function_type_t "void (*)( int )").
Proof. split; [reflexivity | discriminate]. Qed.

(** C8 (amended).  For every type [T]: [is_const(Const(T))] and
    [remove_const(Const(T)) == T]; the same for [volatile];
    [remove_pointer(Pointer(T)) == T] when [T] is not a free or member
    function type (so also for a member variable type), while a pointer to
    a free or member function type is returned unchanged;
    [remove_reference(Reference(T)) == T]; and for [T] neither const nor
    volatile [array_item_type(Array(T, n)) == T] and
    [array_size(Array(T, n)) == n]. *)
Theorem wrap_unwrap_round_trip (T : type_t) (n : N) :
  is_const (const_t T) = true /\
  remove_const (const_t T) = Ok T /\
  is_volatile (volatile_t T) = true /\
  remove_volatile (volatile_t T) = Ok T /\
  (is_calldef_type_t T = false -> remove_pointer (pointer_t T) = Ok T) /\
  (is_calldef_type_t T = true ->
   remove_pointer (pointer_t T) = Ok (pointer_t T)) /\
  remove_reference (reference_t T) = Ok T /\
  (is_const T = false -> is_volatile T = false ->
   array_item_type (array_t T n) = Ok T /\ array_size (array_t T n) = Ok n).
Proof.
  split; [reflexivity|]. split; [reflexivity|]. split; [reflexivity|].
  split; [reflexivity|]. split; [|split; [|split; [reflexivity|]]].
  - intros H. unfold remove_pointer. cbn [remove_alias].
    rewrite is_pointer_pointer_t. cbn. now rewrite H.
  - intros H. unfold remove_pointer. cbn [remove_alias].
    rewrite is_pointer_pointer_t. cbn. now rewrite H.
  - intros Hc Hv.
    assert (Hcv : remove_cv (array_t T n) = Ok (array_t T n))
      by (apply remove_cv_unqualified; assumption).
    split.
    + unfold array_item_type, is_array. cbn [remove_alias].
      change (remove_reference (array_t T n)) with (Ok (array_t T n)).
      cbn [bind]. rewrite Hcv. cbn [bind].
      change (isinstance (array_t T n) cls_array_t) with true.
      reflexivity.
    + unfold array_size. cbn [remove_alias].
      change (remove_reference (array_t T n)) with (Ok (array_t T n)).
      cbn [bind]. rewrite Hcv. reflexivity.
Qed.

Lemma wrap_unwrap_round_trip_witness :
  remove_pointer (pointer_t ex_int) = Ok ex_int /\
  remove_pointer (pointer_t (member_function_type_t "m"))
  = Ok (pointer_t (member_function_type_t "m")) /\
  array_item_type (array_t ex_int 3) = Ok ex_int /\
  array_size (array_t ex_int 3) = Ok 3%N.
Proof.
  destruct (wrap_unwrap_round_trip ex_int 3)
    as (_ & _ & _ & _ & Hp & _ & _ & Ha).
  destruct (wrap_unwrap_round_trip (member_function_type_t "m") 0)
    as (_ & _ & _ & _ & _ & Hf & _).
  split; [apply Hp; reflexivity|].
  split; [apply Hf; reflexivity|].
  apply Ha; reflexivity.
Defined.

(** ** C5: the copy constructor test *)

Lemma is_copy_constructor_total args parent :
  exists b, is_copy_constructor args parent = Ok b.
Proof.
  unfold is_copy_constructor.
  destruct args as [|a [|a' args]]; cbn; eauto.
  destruct (decl_type a) as [ | | | |B| | | | | | ]; cbn; eauto.
  rewrite (is_const_eq B).
  destruct (remove_alias B) as [ |b|b| | |b sz| | | | | ]; cbn; eauto.
  - destruct b; cbn; eauto.
  - destruct (is_const b); cbn; eauto. destruct b; cbn; eauto.
  - destruct (is_const b); cbn; eauto. destruct b; cbn; eauto.
Qed.

Lemma remove_alias_resolution : alias_resolution remove_alias is_const.
Proof.
  split.
  - intros t H. destruct t; try discriminate H; reflexivity.
  - reflexivity.
  - intros t. rewrite (is_const_eq t). reflexivity.
Qed.

Lemma resolve_aliases_idempotent (t : type_t) :
  resolve_aliases (resolve_aliases t) = resolve_aliases t.
Proof. induction t; cbn; congruence. Qed.

Lemma resolve_aliases_not_alias (t : type_t) :
  remove_alias (resolve_aliases t) = resolve_aliases t.
Proof. induction t; cbn; try reflexivity; assumption. Qed.

Lemma resolve_aliases_resolution :
  alias_resolution resolve_aliases is_const_resolved.
Proof.
  split.
  - intros t H. destruct t; try discriminate H; reflexivity.
  - reflexivity.
  - intros t. unfold is_const_resolved.
    rewrite (is_const_eq (resolve_aliases t)), resolve_aliases_not_alias.
    pose proof (resolve_aliases_idempotent t) as Hi.
    destruct (resolve_aliases t) as [ |b|b| | |b sz| | | | | ];
      try reflexivity; cbn in Hi; congruence.
Qed.

(** C5.  Whatever alias resolution [remove_alias] performs, as long as it
    keeps the outermost layer of a compound type and leaves a [declarated_t]
    in place: [is_copy_constructor(args, parent)] is true iff there is
    exactly one argument, its type is a reference, and the referent, after
    that alias resolution, is [const_t] of the [declarated_t] that refers to
    [parent] itself; the test never raises; and an argument whose type is an
    alias at the outermost level is not a copy constructor argument.  The
    test of the model is the one over [remove_alias]. *)
Theorem is_copy_constructor_iff
  (resolve : type_t -> type_t) (is_const_ : type_t -> bool)
  (args : list argument_t) (parent : declaration) :
  alias_resolution resolve is_const_ ->
  (is_copy_constructor_over resolve is_const_ args parent = Ok true <->
   exists a B, args = [a] /\ decl_type a = reference_t B /\
               resolve B = const_t (declarated_t parent)) /\
  (exists b, is_copy_constructor_over resolve is_const_ args parent = Ok b) /\
  (forall a n t, args = [a] -> decl_type a = alias_t n t ->
                 is_copy_constructor_over resolve is_const_ args parent
                 = Ok false) /\
  is_copy_constructor args parent
  = is_copy_constructor_over remove_alias is_const args parent.
Proof.
  intros [Hcompound Hdeclarated Hconst].
  assert (Hdecl_const : forall d, is_const_ (declarated_t d) = false)
    by (intros d; rewrite Hconst, Hdeclarated; reflexivity).
  split; [|split; [|split]].
  - split.
    + unfold is_copy_constructor_over.
      destruct args as [|a [|a' args]]; cbn; try discriminate.
      destruct (is_compound_t (decl_type a)) eqn:Hc; cbn; try discriminate.
      unfold isinstance. rewrite (Hcompound _ Hc).
      destruct (decl_type a) as [ | | | |B| | | | | | ] eqn:Ha;
        cbn; try discriminate.
      rewrite (Hconst B).
      destruct (resolve B) as [ |b|b| | |b sz| | | | | ] eqn:HB;
        cbn; try discriminate.
      * destruct b; cbn; try discriminate.
        intros H. injection H as H. apply declaration_eqb_eq in H. subst.
        exists a, B. auto.
      * destruct (is_const_ b) eqn:Hb; cbn; try discriminate.
        destruct b; cbn; try discriminate.
        rewrite Hdecl_const in Hb. discriminate Hb.
      * destruct (is_const_ b) eqn:Hb; cbn; try discriminate.
        destruct b; cbn; try discriminate.
        rewrite Hdecl_const in Hb. discriminate Hb.
    + intros (a & B & -> & Ha & HB).
      unfold is_copy_constructor_over. cbn. rewrite Ha. cbn.
      unfold isinstance.
      rewrite (Hcompound (reference_t B) eq_refl). cbn.
      rewrite (Hconst B), HB. cbn.
      assert (declaration_eqb parent parent = true) as ->
          by (now apply declaration_eqb_eq).
      reflexivity.
  - unfold is_copy_constructor_over.
    destruct args as [|a [|a' args]]; cbn; eauto.
    destruct (is_compound_t (decl_type a)) eqn:Hc; cbn; eauto.
    unfold isinstance. rewrite (Hcompound _ Hc).
    destruct (decl_type a) as [ | | | |B| | | | | | ]; cbn; eauto.
    rewrite (Hconst B).
    destruct (resolve B) as [ |b|b| | |b sz| | | | | ]; cbn; eauto.
    + destruct b; cbn; eauto.
    + destruct (is_const_ b); cbn; eauto. destruct b; cbn; eauto.
    + destruct (is_const_ b); cbn; eauto. destruct b; cbn; eauto.
  - intros a n t -> Ha. unfold is_copy_constructor_over. cbn.
    now rewrite Ha.
  - reflexivity.
Qed.

Lemma is_copy_constructor_iff_witness :
  is_copy_constructor
    [ {| arg_name := "other"; decl_type := reference_t (const_t ex_Base) |} ]
    (class_t 0) = Ok true /\
  is_copy_constructor_over remove_alias is_const
    [ {| arg_name := "other";
         decl_type := alias_t "base_cref" (reference_t (const_t ex_Base)) |} ]
    (class_t 0) = Ok false /\
  is_copy_constructor_over resolve_aliases is_const_resolved
    [ {| arg_name := "other";
         decl_type := reference_t (const_t (alias_t "B_t" ex_Base)) |} ]
    (class_t 0) = Ok true.
Proof.
  split; [|split].
  - rewrite (proj2 (proj2 (proj2
               (is_copy_constructor_iff remove_alias is_const _ (class_t 0)
                  remove_alias_resolution)))).
    apply (proj1 (is_copy_constructor_iff remove_alias is_const _ (class_t 0)
                    remove_alias_resolution)).
    eexists _, _. repeat split; reflexivity.
  - eapply (proj1 (proj2 (proj2
              (is_copy_constructor_iff remove_alias is_const _ (class_t 0)
                 remove_alias_resolution))));
      reflexivity.
  - apply (proj1 (is_copy_constructor_iff resolve_aliases is_const_resolved
                    _ (class_t 0) resolve_aliases_resolution)).
    eexists _, _. repeat split; reflexivity.
Defined.

(** ** C9: array_size and array_item_type *)

(** C9.  For an element type [b] that is itself not qualified, not an
    array, not a reference and not an alias.  On an array of [b] of one
    dimension, written with the qualifiers around the array or around the
    element, [array_size] returns the element count and [array_item_type]
    the element type [b]; [array_item_type] returns the pointee of a pointer
    (the pointer itself for a pointer to a function type); on [b] itself,
    qualified or behind a reference, [array_size] raises [AssertionError],
    and [array_item_type] raises [RuntimeError] unless [b] is a pointer.
    But [array_item_type] does not return the element type on every array
    that [is_array] and [array_size] accept: for a reference to an array it
    returns the array itself, for an array of arrays of [const b] it
    returns [b]; and [array_size] rejects the volatile array of [const b]. *)
Theorem array_item_type_misses_element_type (b : type_t) (n m : N) :
  plain_element b = true ->
  (array_size (array_t b n) = Ok n /\
   array_size (const_t (array_t b n)) = Ok n /\
   array_size (volatile_t (array_t b n)) = Ok n /\
   array_size (volatile_t (const_t (array_t b n))) = Ok n /\
   array_size (const_t (volatile_t (array_t b n))) = Ok n /\
   array_size (array_t (const_t b) n) = Ok n /\
   array_size (array_t (volatile_t b) n) = Ok n /\
   array_size (array_t (volatile_t (const_t b)) n) = Ok n /\
   array_size (array_t (const_t (volatile_t b)) n) = Ok n) /\
  (array_item_type (array_t b n) = Ok b /\
   array_item_type (const_t (array_t b n)) = Ok b /\
   array_item_type (volatile_t (array_t b n)) = Ok b /\
   array_item_type (volatile_t (const_t (array_t b n))) = Ok b /\
   array_item_type (const_t (volatile_t (array_t b n))) = Ok b /\
   array_item_type (array_t (const_t b) n) = Ok b /\
   array_item_type (array_t (volatile_t b) n) = Ok b /\
   array_item_type (array_t (volatile_t (const_t b)) n) = Ok b /\
   array_item_type (array_t (const_t (volatile_t b)) n) = Ok b) /\
  array_item_type (pointer_t b)
  = Ok (if is_calldef_type_t b then pointer_t b else b) /\
  (array_size b = Raise AssertionError /\
   array_size (const_t b) = Raise AssertionError /\
   array_size (volatile_t b) = Raise AssertionError /\
   array_size (reference_t b) = Raise AssertionError /\
   match b with
   | pointer_t _ => True
   | _ => array_item_type b = Raise RuntimeError /\
          array_item_type (const_t b) = Raise RuntimeError /\
          array_item_type (reference_t b) = Raise RuntimeError
   end) /\
  (is_array (reference_t (array_t b n)) = Ok true /\
   array_size (reference_t (array_t b n)) = Ok n /\
   array_item_type (reference_t (array_t b n)) = Ok (array_t b n)) /\
  (is_array (array_t (array_t (const_t b) m) n) = Ok true /\
   array_size (array_t (array_t (const_t b) m) n) = Ok n /\
   array_item_type (array_t (array_t (const_t b) m) n) = Ok b) /\
  (is_const (volatile_t (array_t (const_t b) n)) = true /\
   array_size (volatile_t (array_t (const_t b) n)) = Raise AssertionError).
Proof.
  intros Hb.
  destruct b; try discriminate Hb; repeat split; reflexivity.
Qed.

Lemma array_item_type_misses_element_type_witness :
  array_item_type (array_t (const_t ex_int) 3) = Ok ex_int /\
  array_item_type (reference_t (array_t ex_int 3)) = Ok (array_t ex_int 3) /\
  array_item_type (array_t (array_t (const_t ex_int) 3) 2) = Ok ex_int /\
  array_size (reference_t ex_int) = Raise AssertionError.
Proof.
  destruct (array_item_type_misses_element_type ex_int 3 3 eq_refl)
    as (_ & Hitem & _ & Hfail & Href & _).
  destruct (array_item_type_misses_element_type ex_int 2 3 eq_refl)
    as (_ & _ & _ & _ & _ & Harr & _).
  split; [apply Hitem|]. split; [apply Href|]. split; [apply Harr|].
  apply Hfail.
Defined.

(** ** C7: applying a removal twice *)

(** [int**] loses a pointer at each application, and the const of a
    three-dimensional array of [const int] survives one [remove_cv]. *)
Lemma counter_removal_not_idempotent :
  (r <- remove_pointer (pointer_t (pointer_t ex_int)) ;; remove_pointer r)
  <> remove_pointer (pointer_t (pointer_t ex_int)) /\
  (r <- remove_cv (array_t (array_t (array_t (const_t ex_int) 1) 2) 3) ;;
   remove_cv r)
  <> remove_cv (array_t (array_t (array_t (const_t ex_int) 1) 2) 3).
Proof. split; vm_compute; discriminate. Qed.

Lemma remove_pointer_not_pointer (r : type_t) :
  is_pointer r = false -> remove_pointer r = Ok r.
Proof.
  intros H. unfold remove_pointer. now rewrite is_pointer_remove_alias, H.
Qed.

Lemma remove_reference_not_reference (r : type_t) :
  is_reference (remove_alias r) = false -> remove_reference r = Ok r.
Proof. intros H. unfold remove_reference. now rewrite H. Qed.

Lemma bind_fixed {A : Type} (f : A -> M A) (m : M A) :
  (forall r, m = Ok r -> f r = Ok r) -> (r <- m ;; f r) = m.
Proof. intros H. destruct m as [r|e]; cbn; [now apply H | reflexivity]. Qed.

Lemma remove_declarated_twice (ty : type_t) :
  (forall n m a, ty <> alias_t n (alias_t m a)) ->
  remove_declarated (remove_declarated ty) = remove_declarated ty.
Proof.
  intros H. destruct ty as [ | | | | | | | | | |n aliased]; try reflexivity.
  cbn. destruct aliased; try reflexivity.
  exfalso. eapply H. reflexivity.
Qed.

(** The wrappings of an unqualified [X] from which one [remove_cv] strips
    every qualifier. *)
Lemma remove_cv_strips (X : type_t) (n : N) :
  remove_alias X = X -> is_const X = false -> is_volatile X = false ->
  remove_cv X = Ok X /\
  remove_cv (const_t X) = Ok X /\
  remove_cv (volatile_t X) = Ok X /\
  remove_cv (volatile_t (const_t X)) = Ok X /\
  remove_cv (const_t (volatile_t X)) = Ok X /\
  remove_cv (array_t X n) = Ok (array_t X n) /\
  remove_cv (array_t (const_t X) n) = Ok (array_t X n) /\
  remove_cv (array_t (volatile_t X) n) = Ok (array_t X n) /\
  remove_cv (array_t (volatile_t (const_t X)) n) = Ok (array_t X n) /\
  remove_cv (array_t (const_t (volatile_t X)) n) = Ok (array_t X n).
Proof.
  intros Ha Hc Hv.
  assert (HX : remove_cv X = Ok X)
    by (apply remove_cv_unqualified; rewrite Ha; assumption).
  assert (HA : remove_cv (array_t X n) = Ok (array_t X n))
    by (apply remove_cv_unqualified; cbn; assumption).
  repeat split; try assumption;
    unfold remove_cv, remove_const, remove_volatile; cbn;
    rewrite ?Hc, ?Hv; cbn; rewrite ?Hc, ?Hv; cbn; rewrite ?Hc, ?Hv;
    reflexivity.
Qed.

(** C7 (amended).  For every type [T], a second application changes nothing
    once the first has left nothing to strip: [remove_cv] when its result is
    neither const nor volatile, [remove_pointer] when its result is not a
    pointer, [remove_reference] when its result is not a reference, and
    [remove_declarated] when [T] is not an alias of an alias.  One
    [remove_cv] leaves no qualifier on an unqualified [X] wrapped in
    [const], [volatile] or both in either order, directly or as the element
    of an array, so [remove_cv] is idempotent on these. *)
Theorem removal_idempotent_once_stripped (T : type_t) :
  ((forall r, remove_cv T = Ok r ->
              is_const (remove_alias r) = false /\
              is_volatile (remove_alias r) = false) ->
   (r <- remove_cv T ;; remove_cv r) = remove_cv T) /\
  ((forall r, remove_pointer T = Ok r -> is_pointer r = false) ->
   (r <- remove_pointer T ;; remove_pointer r) = remove_pointer T) /\
  ((forall r, remove_reference T = Ok r ->
              is_reference (remove_alias r) = false) ->
   (r <- remove_reference T ;; remove_reference r) = remove_reference T) /\
  ((forall n m a, T <> alias_t n (alias_t m a)) ->
   remove_declarated (remove_declarated T) = remove_declarated T) /\
  (forall X n,
     remove_alias X = X -> is_const X = false -> is_volatile X = false ->
     In T [X; const_t X; volatile_t X; volatile_t (const_t X);
           const_t (volatile_t X); array_t X n; array_t (const_t X) n;
           array_t (volatile_t X) n; array_t (volatile_t (const_t X)) n;
           array_t (const_t (volatile_t X)) n] ->
     (r <- remove_cv T ;; remove_cv r) = remove_cv T).
Proof.
  split; [|split; [|split; [|split]]].
  - intros H. apply bind_fixed. intros r Hr.
    destruct (H r Hr). now apply remove_cv_unqualified.
  - intros H. apply bind_fixed. intros r Hr.
    apply remove_pointer_not_pointer. now apply H.
  - intros H. apply bind_fixed. intros r Hr.
    apply remove_reference_not_reference. now apply H.
  - apply remove_declarated_twice.
  - intros X n Ha Hc Hv HT.
    destruct (remove_cv_strips X n Ha Hc Hv)
      as (H0 & H1 & H2 & H3 & H4 & H5 & H6 & H7 & H8 & H9).
    cbn [In] in HT.
    repeat (destruct HT as [<- | HT];
            [first [ rewrite H0 | rewrite H1 | rewrite H2 | rewrite H3
                   | rewrite H4 | rewrite H5 | rewrite H6 | rewrite H7
                   | rewrite H8 | rewrite H9 ];
             cbn [bind]; assumption |]).
    destruct HT.
Qed.

Lemma removal_idempotent_once_stripped_witness :
  (r <- remove_cv (volatile_t (const_t ex_int)) ;; remove_cv r)
  = remove_cv (volatile_t (const_t ex_int)) /\
  (r <- remove_pointer (pointer_t ex_int) ;; remove_pointer r)
  = remove_pointer (pointer_t ex_int) /\
  (r <- remove_reference (reference_t ex_int) ;; remove_reference r)
  = remove_reference (reference_t ex_int) /\
  remove_declarated (remove_declarated (alias_t "Base_t" ex_Base))
  = remove_declarated (alias_t "Base_t" ex_Base) /\
  (r <- remove_cv (array_t (volatile_t (const_t ex_int)) 4) ;; remove_cv r)
  = remove_cv (array_t (volatile_t (const_t ex_int)) 4).
Proof.
  split; [|split; [|split; [|split]]].
  - apply (proj1 (removal_idempotent_once_stripped _)).
    intros r H. injection H as <-. split; reflexivity.
  - apply (proj1 (proj2 (removal_idempotent_once_stripped _))).
    intros r H. injection H as <-. reflexivity.
  - apply (proj1 (proj2 (proj2 (removal_idempotent_once_stripped _)))).
    intros r H. injection H as <-. reflexivity.
  - apply (proj1 (proj2 (proj2 (proj2 (removal_idempotent_once_stripped _))))).
    intros n m a H. discriminate H.
  - apply (proj2 (proj2 (proj2 (proj2 (removal_idempotent_once_stripped _))))
             ex_int 4%N); try reflexivity.
    cbn. tauto.
Defined.

(** ** C2: arrays in is_convertible *)

(** An array decays to a pointer to its element, and converts to [void*]:
    both are decided by [__test_trivial], before the array exclusion. *)
Lemma counter_array_converts :
  is_array (array_t ex_int 2) = Ok true /\
  is_convertible ex_store 1 (array_t ex_int 2) (pointer_t ex_int)
  = Some (Ok true) /\
  is_convertible ex_store 1 (array_t ex_int 2)
    (pointer_t (fundamental_t void_t)) = Some (Ok true).
Proof. repeat split; vm_compute; reflexivity. Qed.

(** C2 (amended).  The array exclusion is checked right after
    [__test_trivial] (identity, qualification, conversion to [void*],
    const-widening under a pointer or reference, array decay): when that test
    does not hold and the (normalized) source or target is an array,
    [is_convertible] is false, whatever the later rules would say. *)
Theorem array_excluded_after_trivial
  (st : store) (budget : nat) (source target : type_t) :
  test_trivial (normalize st source) (normalize st target) = Ok false ->
  is_array (normalize st source) = Ok true \/
  (is_array (normalize st source) = Ok false /\
   is_array (normalize st target) = Ok true) ->
  is_convertible st (S budget) source target = Some (Ok false).
Proof.
  intros Htrivial Harray.
  cbn [is_convertible]. unfold is_convertible_body, is_convertible_method.
  rewrite Htrivial. cbn [return_True_if].
  destruct Harray as [Hs | [Hs Ht]].
  - rewrite Hs. reflexivity.
  - rewrite Hs, Ht. reflexivity.
Qed.

Lemma array_excluded_after_trivial_witness :
  is_convertible ex_store 1 (array_t ex_int 2) (array_t ex_int 3)
  = Some (Ok false) /\
  is_convertible ex_store 1 ex_int (array_t ex_int 3) = Some (Ok false).
Proof.
  split.
  - apply array_excluded_after_trivial; [reflexivity | left; reflexivity].
  - apply array_excluded_after_trivial;
      [reflexivity | right; split; reflexivity].
Defined.

(** ** C4: the conversion through a constructor of the target *)

(** [Base] has only the copy constructor the compiler synthesized; through
    it, and through nothing else, [const Base] converts to [Base]. *)
Lemma counter_artificial_constructor_used :
  forallb ctor_is_artificial
    (filter single_argument
       (find_all_constructors (declarations (class_of_id ex_store 0))))
  = true /\
  is_convertible ex_store 2 (const_t ex_Base) ex_Base = Some (Ok true) /\
  is_convertible_body ex_store (fun _ _ => Some (Ok false))
    (const_t ex_Base) ex_Base = Some (Ok false).
Proof. repeat split; vm_compute; reflexivity. Qed.

Lemma return_True_if_any_true {A : Type} (f : A -> outcome bool)
  (xs : list A) :
  (forall x, In x xs -> exists b, f x = Some (Ok b)) ->
  (return_True_if_any f xs (Some (Ok false)) = Some (Ok true) <->
   exists x, In x xs /\ f x = Some (Ok true)) /\
  (return_True_if_any f xs (Some (Ok false)) = Some (Ok false) <->
   forall x, In x xs -> f x = Some (Ok false)).
Proof.
  induction xs as [|x xs IH]; intros Hdef.
  - cbn. split; split; try discriminate; try reflexivity.
    + intros (x & [] & _).
    + intros _ x [].
  - destruct IH as [IHt IHf];
      [intros y Hy; apply Hdef; now right|].
    destruct (Hdef x (or_introl eq_refl)) as [b Hb].
    cbn [return_True_if_any]. rewrite Hb. destruct b; cbn [return_True_if].
    + split; split.
      * intros _. exists x. split; [now left | assumption].
      * reflexivity.
      * discriminate.
      * intros H. specialize (H x (or_introl eq_refl)). congruence.
    + split; split.
      * intros H. apply IHt in H. destruct H as (y & Hy & Hfy).
        exists y. split; [now right | assumption].
      * intros (y & [<- | Hy] & Hfy); [congruence|].
        apply IHt. eauto.
      * intros H y [<- | Hy]; [assumption|]. now apply IHf.
      * intros H. apply IHf. intros y Hy. apply H. now right.
Qed.

Lemma In_find_all_constructors (c : constructor_t) (members : list member) :
  In c (find_all_constructors members) <-> In (constructor c) members.
Proof.
  induction members as [|m members IH]; cbn; [tauto|].
  destruct m as [c'| | | ]; cbn; rewrite IH.
  - split; (intros [H | H]; [left; congruence | now right]).
  - split; [now right | intros [H | H]; [discriminate H | assumption]].
  - split; [now right | intros [H | H]; [discriminate H | assumption]].
  - split; [now right | intros [H | H]; [discriminate H | assumption]].
Qed.

Lemma single_argument_iff (c : constructor_t) :
  single_argument c = true <-> exists a, arguments c = [a].
Proof.
  unfold single_argument. destruct (arguments c) as [|a [|a' l]]; cbn.
  - split; [discriminate | intros (a & H); discriminate H].
  - split; eauto.
  - split; [discriminate | intros (a0 & H); discriminate H].
Qed.

(** C4 (amended).  The rule goes through every constructor declared on the
    target class that has exactly one argument, artificial or not.  When the
    recursive calls on these constructors return, the rule is true iff the
    source is convertible to the parameter type of one of them, and false iff
    it is convertible to none; on a target that is not a class the rule is
    false. *)
Theorem constructor_rule_iff
  (st : store) (rec : type_t -> type_t -> outcome bool)
  (source : type_t) (target_id : nat) :
  (forall c a, In (constructor c) (declarations (class_of_id st target_id)) ->
               arguments c = [a] ->
               exists b, rec source (decl_type a) = Some (Ok b)) ->
  (constructor_rule st rec source (declarated_t (class_t target_id))
   = Some (Ok true) <->
   exists c a, In (constructor c) (declarations (class_of_id st target_id)) /\
               arguments c = [a] /\
               rec source (decl_type a) = Some (Ok true)) /\
  (constructor_rule st rec source (declarated_t (class_t target_id))
   = Some (Ok false) <->
   forall c a, In (constructor c) (declarations (class_of_id st target_id)) ->
               arguments c = [a] ->
               rec source (decl_type a) = Some (Ok false)) /\
  (forall target, (forall id, target <> declarated_t (class_t id)) ->
                  constructor_rule st rec source target = Some (Ok false)).
Proof.
  intros Hdef.
  set (ctors := filter single_argument
                  (find_all_constructors
                     (declarations (class_of_id st target_id)))).
  assert (Hin : forall c, In c ctors <->
                  In (constructor c) (declarations (class_of_id st target_id))
                  /\ exists a, arguments c = [a]).
  { intros c. unfold ctors. rewrite filter_In, In_find_all_constructors.
    now rewrite single_argument_iff. }
  assert (Hfirst : forall c a, arguments c = [a] ->
                               first_argument_type c = decl_type a).
  { intros c a H. unfold first_argument_type. now rewrite H. }
  destruct (return_True_if_any_true
              (fun c => rec source (first_argument_type c)) ctors)
    as [Ht Hf].
  { intros c Hc. apply Hin in Hc. destruct Hc as (Hc & a & Ha).
    rewrite (Hfirst c a Ha). eauto. }
  split; [|split].
  - cbn [constructor_rule]. fold ctors. rewrite Ht. split.
    + intros (c & Hc & Hr). apply Hin in Hc. destruct Hc as (Hc & a & Ha).
      exists c, a. rewrite <- (Hfirst c a Ha). auto.
    + intros (c & a & Hc & Ha & Hr). exists c. split.
      * apply Hin. eauto.
      * now rewrite (Hfirst c a Ha).
  - cbn [constructor_rule]. fold ctors. rewrite Hf. split.
    + intros H c a Hc Ha. rewrite <- (Hfirst c a Ha). apply H.
      apply Hin. eauto.
    + intros H c Hc. apply Hin in Hc. destruct Hc as (Hc & a & Ha).
      rewrite (Hfirst c a Ha). eauto.
  - intros target Htarget. unfold constructor_rule.
    destruct target as [ | | | | | | | | |d| ]; try reflexivity.
    destruct d; try reflexivity. exfalso. eapply Htarget. reflexivity.
Qed.

Lemma constructor_rule_iff_witness :
  constructor_rule ex_store (is_convertible ex_store 1)
    (const_t ex_Base) ex_Base = Some (Ok true).
Proof.
  assert (Hdef : forall c a,
             In (constructor c) (declarations (class_of_id ex_store 0)) ->
             arguments c = [a] ->
             exists b, is_convertible ex_store 1 (const_t ex_Base)
                         (decl_type a) = Some (Ok b)).
  { intros c a [H | []] Ha. injection H as <-. injection Ha as <-.
    eexists. vm_compute. reflexivity. }
  apply (proj1 (constructor_rule_iff ex_store (is_convertible ex_store 1)
                  (const_t ex_Base) 0 Hdef)).
  eexists _, _. split; [left; reflexivity|]. split; reflexivity.
Defined.

(** ** C3: the derived-to-base conversion *)

Lemma type_eqb_neq (x y : type_t) : x <> y -> type_eqb x y = false.
Proof. unfold type_eqb. destruct (type_eq_dec x y); congruence. Qed.

Lemma declaration_eqb_neq (x y : declaration) :
  x <> y -> declaration_eqb x y = false.
Proof.
  unfold declaration_eqb. destruct (declaration_eq_dec x y); congruence.
Qed.

(** Evaluation of the tests on shapes built from two distinct classes. *)
Ltac crunch :=
  cbn;
  repeat (match goal with
          | |- context [type_eqb ?x ?y] =>
              rewrite (type_eqb_neq x y) by congruence
          | |- context [declaration_eqb ?x ?y] =>
              rewrite (declaration_eqb_neq x y) by congruence
          end; cbn).

(** [Derived(const Base&)] converts a [Base] to a [Derived], although the
    derived-to-base test rejects that direction. *)
Lemma counter_base_to_derived_converts :
  test_derived_to_based ex_store ex_Derived ex_Base = Ok true /\
  test_derived_to_based ex_store ex_Base ex_Derived = Ok false /\
  is_convertible ex_store 2 ex_Base ex_Derived = Some (Ok true).
Proof. repeat split; vm_compute; reflexivity. Qed.

Lemma return_True_if_any_all_false {A : Type} (f : A -> outcome bool)
  (xs : list A) (rest : outcome bool) :
  (forall x, In x xs -> f x = Some (Ok false)) ->
  return_True_if_any f xs rest = rest.
Proof.
  intros Hf. induction xs as [|x xs IH]; cbn; [reflexivity|].
  rewrite (Hf x) by now left. cbn. apply IH.
  intros y Hy. apply Hf. now right.
Qed.

Lemma non_private_base_is_related (bases : list hierarchy_info_t)
  (base_ : declaration) :
  has_non_private_base bases base_ = true ->
  existsb (fun base_desc => declaration_eqb (related_class base_desc) base_)
    bases = true.
Proof.
  unfold has_non_private_base. rewrite !existsb_exists.
  intros (x & Hx & H). apply andb_true_iff in H. exists x. tauto.
Qed.

Lemma derived_to_based_loops (bases : list hierarchy_info_t)
  (base_ : declaration) :
  (related <-
     (if existsb (fun base_desc =>
                    declaration_eqb (related_class base_desc) base_) bases
      then Ok true else Ok false) ;;
   if negb related then Ok false
   else if negb (has_non_private_base bases base_) then Ok false
        else Ok true)
  = Ok (has_non_private_base bases base_).
Proof.
  destruct (has_non_private_base bases base_) eqn:Hnp.
  - rewrite (non_private_base_is_related _ _ Hnp). reflexivity.
  - destruct (existsb _ bases); reflexivity.
Qed.

Section Hierarchy.

Variable st : store.
Variables Derived Base : nat.
Hypothesis different : Derived <> Base.

Let d : type_t := declarated_t (class_t Derived).
Let b : type_t := declarated_t (class_t Base).
Let inherits : bool :=
  has_non_private_base (recursive_bases (class_of_id st Derived))
    (class_t Base).

Lemma derived_to_based_on_shapes :
  test_derived_to_based st d b = Ok inherits /\
  test_derived_to_based st (pointer_t d) (pointer_t b) = Ok inherits /\
  test_derived_to_based st (pointer_t (const_t d)) (pointer_t (const_t b))
  = Ok inherits /\
  test_derived_to_based st (reference_t d) (reference_t b) = Ok inherits /\
  test_derived_to_based st (reference_t (const_t d))
    (reference_t (const_t b)) = Ok inherits.
Proof.
  unfold d, b, inherits.
  repeat split; unfold test_derived_to_based; crunch;
    rewrite <- (derived_to_based_loops
                  (recursive_bases (class_of_id st Derived)) (class_t Base));
    destruct (existsb _ (recursive_bases (class_of_id st Derived)));
    cbn; try reflexivity;
    destruct (has_non_private_base _ _); reflexivity.
Qed.

Lemma pointers_convert_as_derived_to_based (rec : type_t -> type_t -> outcome bool) :
  is_convertible_body st rec (pointer_t d) (pointer_t b)
  = Some (Ok inherits) /\
  is_convertible_body st rec (pointer_t (const_t d)) (pointer_t (const_t b))
  = Some (Ok inherits).
Proof.
  unfold d, b, inherits.
  split; unfold is_convertible_body, is_convertible_method, test_trivial;
    crunch; rewrite derived_to_based_loops;
    destruct (has_non_private_base _ _); reflexivity.
Qed.

Lemma const_class_to_int (budget : nat) :
  is_convertible st (S budget) (const_t d) (fundamental_t int_t)
  = Some (Ok false).
Proof.
  unfold d. cbn [is_convertible].
  unfold is_convertible_body, is_convertible_method, test_trivial.
  crunch. reflexivity.
Qed.

Lemma references_convert_as_derived_to_based (budget : nat) (r : bool) :
  is_convertible st budget d (fundamental_t int_t) = Some (Ok r) ->
  is_convertible st (S budget) (reference_t d) (reference_t b)
  = Some (Ok inherits) /\
  is_convertible st (S budget) (reference_t (const_t d))
    (reference_t (const_t b)) = Some (Ok inherits).
Proof.
  intros Hprobe.
  assert (Hconst : is_convertible st budget (const_t d) (fundamental_t int_t)
                   = Some (Ok false)).
  { destruct budget as [|budget']; [discriminate Hprobe|].
    apply const_class_to_int. }
  unfold d, b, inherits in *.
  split; cbn [is_convertible];
    unfold is_convertible_body, is_convertible_method, test_trivial,
      test_const_x_ref__to__x, test_ref_x__to__x;
    crunch; rewrite ?Hprobe, ?Hconst; crunch;
    rewrite derived_to_based_loops;
    destruct r; destruct (has_non_private_base _ _); reflexivity.
Qed.

Lemma value_converts_when_derived (rec : type_t -> type_t -> outcome bool) :
  inherits = true ->
  is_convertible_body st rec d b = Some (Ok true).
Proof.
  unfold d, b, inherits. intros H.
  unfold is_convertible_body, is_convertible_method, test_trivial.
  crunch. rewrite derived_to_based_loops, H. reflexivity.
Qed.

Lemma value_converts_as_derived_to_based
  (rec : type_t -> type_t -> outcome bool) :
  find_all_casting_operators (declarations (class_of_id st Derived)) = [] ->
  filter single_argument
    (find_all_constructors (declarations (class_of_id st Base))) = [] ->
  is_convertible_body st rec d b = Some (Ok inherits).
Proof.
  unfold d, b, inherits. intros Hops Hctors.
  unfold is_convertible_body, is_convertible_method, test_trivial.
  crunch. rewrite derived_to_based_loops, Hops, Hctors.
  destruct (has_non_private_base _ _); reflexivity.
Qed.

Lemma value_converts_by_rule_or_user_conversion
  (rec : type_t -> type_t -> outcome bool) :
  is_convertible_body st rec d b
  = if inherits then Some (Ok true)
    else source_rules st rec d b (constructor_rule st rec d b).
Proof.
  unfold d, b, inherits.
  unfold is_convertible_body, is_convertible_method, test_trivial.
  crunch. rewrite derived_to_based_loops.
  destruct (has_non_private_base _ _); reflexivity.
Qed.

Lemma class_to_reference_to_other_class (budget : nat) :
  find_all_casting_operators (declarations (class_of_id st Derived)) = [] ->
  is_convertible st (S budget) d (reference_t (const_t b)) = Some (Ok false) /\
  is_convertible st (S budget) d (reference_t b) = Some (Ok false).
Proof.
  intros Hops. unfold d, b. cbn [is_convertible].
  split; unfold is_convertible_body, is_convertible_method, test_trivial,
           test_derived_to_based; crunch;
    rewrite Hops;
    destruct (existsb _ (recursive_bases (class_of_id st Derived)));
    cbn; try reflexivity;
    destruct (has_non_private_base _ _); reflexivity.
Qed.

Lemma value_converts_past_copy_constructors (budget : nat) :
  find_all_casting_operators (declarations (class_of_id st Derived)) = [] ->
  (forall c,
     In c (filter single_argument
             (find_all_constructors (declarations (class_of_id st Base)))) ->
     first_argument_type c = reference_t (const_t b) \/
     first_argument_type c = reference_t b) ->
  is_convertible st (S (S budget)) d b = Some (Ok inherits).
Proof.
  intros Hops Hctors.
  change (is_convertible st (S (S budget)) d b)
    with (is_convertible_body st (is_convertible st (S budget)) d b).
  rewrite value_converts_by_rule_or_user_conversion.
  destruct inherits; [reflexivity|].
  destruct (class_to_reference_to_other_class budget Hops) as [Hcr Hr].
  unfold d, b in *. unfold source_rules, constructor_rule.
  cbn -[is_convertible]. rewrite Hops. cbn -[is_convertible].
  apply return_True_if_any_all_false.
  intros c Hc.
  destruct (Hctors c Hc) as [-> | ->]; assumption.
Qed.

End Hierarchy.

(** C3 (amended).  For two distinct classes [Derived] and [Base], let
    [inherits] say that the transitive base list of [Derived] has an entry
    for [Base] whose access is not private.  In the value, pointer/pointer,
    const-pointer/const-pointer, reference/reference and
    const-reference/const-reference shapes the derived-to-base test equals
    [inherits].  [is_convertible] equals [inherits] in the two pointer
    shapes, and in the two reference shapes when the probe
    [is_convertible(Derived, int)] returns; in the value shape it is true
    when [inherits] is, and otherwise it is the answer of the two
    user-defined conversion rules (a casting operator of [Derived], a
    single-argument constructor of [Base]).  So in the value shape it equals
    [inherits] when [Derived] has no casting operator and [Base] no
    single-argument constructor, and also when the single-argument
    constructors of [Base] are its copy constructors, of parameter
    [const Base&] or [Base&]: base-to-derived and a privately inherited
    base then do not convert. *)
Theorem derived_to_base_conversion (st : store) (Derived Base : nat) :
  Derived <> Base ->
  let d := declarated_t (class_t Derived) in
  let b := declarated_t (class_t Base) in
  let inherits :=
    has_non_private_base (recursive_bases (class_of_id st Derived))
      (class_t Base) in
  (test_derived_to_based st d b = Ok inherits /\
   test_derived_to_based st (pointer_t d) (pointer_t b) = Ok inherits /\
   test_derived_to_based st (pointer_t (const_t d)) (pointer_t (const_t b))
   = Ok inherits /\
   test_derived_to_based st (reference_t d) (reference_t b) = Ok inherits /\
   test_derived_to_based st (reference_t (const_t d))
     (reference_t (const_t b)) = Ok inherits) /\
  (forall budget,
     is_convertible st (S budget) (pointer_t d) (pointer_t b)
     = Some (Ok inherits) /\
     is_convertible st (S budget) (pointer_t (const_t d))
       (pointer_t (const_t b)) = Some (Ok inherits)) /\
  (forall budget r,
     is_convertible st budget d (fundamental_t int_t) = Some (Ok r) ->
     is_convertible st (S budget) (reference_t d) (reference_t b)
     = Some (Ok inherits) /\
     is_convertible st (S budget) (reference_t (const_t d))
       (reference_t (const_t b)) = Some (Ok inherits)) /\
  (forall budget,
     inherits = true ->
     is_convertible st (S budget) d b = Some (Ok true)) /\
  (forall budget,
     find_all_casting_operators (declarations (class_of_id st Derived)) = [] ->
     filter single_argument
       (find_all_constructors (declarations (class_of_id st Base))) = [] ->
     is_convertible st (S budget) d b = Some (Ok inherits)) /\
  (forall budget,
     is_convertible st (S budget) d b
     = if inherits then Some (Ok true)
       else source_rules st (is_convertible st budget) d b
              (constructor_rule st (is_convertible st budget) d b)) /\
  (forall budget,
     find_all_casting_operators (declarations (class_of_id st Derived)) = [] ->
     (forall c,
        In c (filter single_argument
                (find_all_constructors
                   (declarations (class_of_id st Base)))) ->
        first_argument_type c = reference_t (const_t b) \/
        first_argument_type c = reference_t b) ->
     is_convertible st (S (S budget)) d b = Some (Ok inherits)).
Proof.
  intros Hneq d b inherits.
  split; [apply derived_to_based_on_shapes; assumption|].
  split; [intros budget; apply pointers_convert_as_derived_to_based;
          assumption|].
  split; [intros budget r;
          apply references_convert_as_derived_to_based; assumption|].
  split; [intros budget H; apply value_converts_when_derived; assumption|].
  split; [intros budget Hops Hctors;
          apply value_converts_as_derived_to_based; assumption|].
  split.
  - intros budget.
    apply value_converts_by_rule_or_user_conversion; assumption.
  - intros budget Hops Hctors.
    apply value_converts_past_copy_constructors; assumption.
Qed.

Lemma derived_to_base_conversion_witness :
  is_convertible ex_store 1 (pointer_t ex_Derived) (pointer_t ex_Base)
  = Some (Ok true) /\
  is_convertible ex_store 1 (pointer_t ex_Base) (pointer_t ex_Derived)
  = Some (Ok false) /\
  is_convertible ex_store 1 (pointer_t ex_Hidden) (pointer_t ex_Base)
  = Some (Ok false) /\
  is_convertible ex_store 2 (reference_t (const_t ex_Derived))
    (reference_t (const_t ex_Base)) = Some (Ok true) /\
  is_convertible ex_store 1 ex_Derived ex_Base = Some (Ok true) /\
  is_convertible ex_store 1 ex_Base ex_Hidden = Some (Ok false) /\
  is_convertible ex_store 2 ex_Hidden ex_Base = Some (Ok false).
Proof.
  assert (H10 : 1 <> 0) by discriminate.
  assert (H01 : 0 <> 1) by discriminate.
  assert (H20 : 2 <> 0) by discriminate.
  assert (H02 : 0 <> 2) by discriminate.
  pose proof (derived_to_base_conversion ex_store 1 0 H10) as P10.
  pose proof (derived_to_base_conversion ex_store 0 1 H01) as P01.
  pose proof (derived_to_base_conversion ex_store 2 0 H20) as P20.
  pose proof (derived_to_base_conversion ex_store 0 2 H02) as P02.
  cbv zeta in P10, P01, P20, P02.
  destruct P10 as (_ & Hp10 & Hr10 & Hv10 & _).
  destruct P01 as (_ & Hp01 & _).
  destruct P20 as (_ & Hp20 & _ & _ & _ & _ & Hc20).
  destruct P02 as (_ & _ & _ & _ & Hv02 & _).
  split; [exact (proj1 (Hp10 0))|].
  split; [exact (proj1 (Hp01 0))|].
  split; [exact (proj1 (Hp20 0))|].
  split; [exact (proj2 (Hr10 1 false eq_refl))|].
  split; [exact (Hv10 0 eq_refl)|].
  split; [exact (Hv02 0 eq_refl eq_refl)|].
  apply (Hc20 0 eq_refl).
  intros c [<- | []]. left. reflexivity.
Defined.

(** ** C1: termination of is_convertible *)

Lemma mutual_constructors_step (rec : type_t -> type_t -> outcome bool) :
  (rec ex_int ex_B = None ->
   is_convertible_body ex_store rec ex_int ex_A = None) /\
  (rec ex_int ex_A = None ->
   is_convertible_body ex_store rec ex_int ex_B = None).
Proof.
  split; intros H;
    unfold is_convertible_body, is_convertible_method; cbn;
    rewrite H; reflexivity.
Qed.

Lemma mutual_constructors_exhaust (budget : nat) :
  is_convertible ex_store budget ex_int ex_A = None /\
  is_convertible ex_store budget ex_int ex_B = None.
Proof.
  induction budget as [|budget [IHA IHB]]; [split; reflexivity|].
  split; cbn [is_convertible].
  - exact (proj1 (mutual_constructors_step _) IHB).
  - exact (proj2 (mutual_constructors_step _) IHA).
Qed.

(** With [A(B)] and [B(A)] the call on [(int, A)] calls [(int, B)], which
    calls [(int, A)] again; the repeated pair is not cut, and no budget is
    enough for [is_convertible(int, A)] to return. *)
Lemma counter_mutual_constructors_never_return :
  callees ex_store ex_int ex_A = [(ex_int, ex_B)] /\
  callees ex_store ex_int ex_B = [(ex_int, ex_A)] /\
  ~ (exists budget r, is_convertible ex_store budget ex_int ex_A = Some r).
Proof.
  split; [reflexivity|]. split; [reflexivity|].
  intros (budget & r & H).
  destruct (mutual_constructors_exhaust budget) as [HA _]. congruence.
Qed.

Lemma return_True_if_returns (c rest : outcome bool) :
  c <> None -> rest <> None -> return_True_if c rest <> None.
Proof.
  intros Hc Hrest. destruct c as [[[|]|e]|]; cbn; congruence.
Qed.

Lemma return_False_if_returns (c rest : outcome bool) :
  c <> None -> rest <> None -> return_False_if c rest <> None.
Proof.
  intros Hc Hrest. destruct c as [[[|]|e]|]; cbn; congruence.
Qed.

Lemma and_also_returns (c1 c2 : outcome bool) :
  c1 <> None -> c2 <> None -> and_also c1 c2 <> None.
Proof.
  intros H1 H2. destruct c1 as [[[|]|e]|]; cbn; congruence.
Qed.

Lemma return_True_if_any_returns {A : Type} (f : A -> outcome bool)
  (xs : list A) (rest : outcome bool) :
  (forall x, In x xs -> f x <> None) -> rest <> None ->
  return_True_if_any f xs rest <> None.
Proof.
  intros Hf Hrest. induction xs as [|x xs IH]; cbn; [assumption|].
  apply return_True_if_returns.
  - apply Hf. now left.
  - apply IH. intros y Hy. apply Hf. now right.
Qed.

Section Descent.

Variable st : store.
Variable rec : type_t -> type_t -> outcome bool.
Variables source target : type_t.

Let s : type_t := normalize st source.
Let t : type_t := normalize st target.

Hypothesis callees_return :
  forall p, In p (callees st source target) -> rec (fst p) (snd p) <> None.

Lemma referent_probe_returns (source_base : type_t) :
  is_reference s = true ->
  base s = Ok source_base ->
  rec source_base (fundamental_t int_t) <> None.
Proof.
  intros Hr H. apply (callees_return (source_base, fundamental_t int_t)).
  unfold callees. fold s. rewrite Hr, H. apply in_or_app. left. now left.
Qed.

Lemma referent_of_referent_probe_returns (source_base source_base_base : type_t) :
  is_reference s = true ->
  base s = Ok source_base ->
  is_const source_base = true ->
  base source_base = Ok source_base_base ->
  rec source_base_base (fundamental_t int_t) <> None.
Proof.
  intros Hr H Hc H'.
  apply (callees_return (source_base_base, fundamental_t int_t)).
  unfold callees. fold s. rewrite Hr, H, Hc, H'. apply in_or_app. left.
  right. now left.
Qed.

Lemma test_const_ref_x__to__y_returns :
  test_const_ref_x__to__y st rec s t <> None.
Proof.
  unfold test_const_ref_x__to__y.
  destruct (is_reference s) eqn:Hr; cbn [negb or_else]; [|discriminate].
  destruct (base s) as [sb|e] eqn:Hs; cbn [bind]; [|discriminate].
  destruct (is_const sb) eqn:Hc; cbn [negb]; [|discriminate].
  destruct (base sb) as [sbb|e] eqn:Hsb; [|discriminate].
  destruct (_ && _); [discriminate|].
  apply return_True_if_returns; [|discriminate].
  apply and_also_returns; [|discriminate].
  eapply referent_of_referent_probe_returns; eauto.
Qed.

Lemma test_ref_x__to__y_returns :
  test_ref_x__to__y st rec s t <> None.
Proof.
  unfold test_ref_x__to__y.
  destruct (is_reference s) eqn:Hr; cbn [negb]; [|discriminate].
  destruct (base s) as [sb|e] eqn:Hs; [|discriminate].
  destruct (_ && _); [discriminate|].
  apply return_True_if_returns; [|discriminate].
  apply and_also_returns; [|discriminate].
  now apply referent_probe_returns.
Qed.

Lemma constructor_rule_returns :
  constructor_rule st rec s t <> None.
Proof.
  unfold constructor_rule.
  destruct t as [ | | | | | | | | |dt| ] eqn:Ht; try discriminate.
  destruct dt as [target_id| | | ]; try discriminate.
  apply return_True_if_any_returns; [|discriminate].
  intros c Hc.
  apply (callees_return (s, first_argument_type c)).
  unfold callees. fold s. fold t. rewrite Ht.
  apply in_or_app. right. apply in_or_app. right.
  apply (in_map (fun constructor => (s, first_argument_type constructor))).
  assumption.
Qed.

Lemma source_rules_returns (rest : outcome bool) :
  rest <> None -> source_rules st rec s t rest <> None.
Proof.
  intros Hrest. unfold source_rules.
  destruct s as [ | | | | | | | | |ds| ] eqn:Hs; try assumption.
  destruct (_ && _); [discriminate|].
  destruct ds as [source_inst| | | ]; try assumption.
  apply return_True_if_any_returns; [|assumption].
  intros o Ho.
  apply (callees_return (return_type o, t)).
  unfold callees. fold s. fold t. rewrite Hs.
  apply in_or_app. right. apply in_or_app. left.
  apply (in_map (fun operator => (return_type operator, t))).
  assumption.
Qed.

Lemma is_convertible_body_returns :
  is_convertible_body st rec source target <> None.
Proof.
  unfold is_convertible_body, is_convertible_method. fold s. fold t.
  apply return_True_if_returns; [discriminate|].
  apply return_False_if_returns; [discriminate|].
  apply return_True_if_returns; [discriminate|].
  apply return_True_if_returns; [apply test_const_ref_x__to__y_returns|].
  apply return_True_if_returns; [discriminate|].
  apply return_True_if_returns; [apply test_ref_x__to__y_returns|].
  apply return_True_if_returns; [discriminate|].
  apply return_True_if_returns; [discriminate|].
  apply return_True_if_returns; [discriminate|].
  apply source_rules_returns. apply constructor_rule_returns.
Qed.

End Descent.

(** C1 (amended).  [is_convertible(source, target)] returns (a value or an
    exception) whenever the chains of recursive calls that can start from
    the pair have bounded length; the recursion keeps no set of visited
    pairs, and a chain that comes back to a pair is not cut. *)
Theorem is_convertible_returns_when_descent_bounded
  (st : store) (depth : nat) (source target : type_t) :
  descent_bounded st depth source target = true ->
  exists r, is_convertible st depth source target = Some r.
Proof.
  revert source target.
  induction depth as [|depth IH]; intros source target H;
    [discriminate H|].
  cbn [descent_bounded] in H. rewrite forallb_forall in H.
  destruct (is_convertible st (S depth) source target) as [r|] eqn:E;
    [eauto|].
  exfalso. cbn [is_convertible] in E. revert E.
  apply is_convertible_body_returns.
  intros p Hp. destruct (IH _ _ (H p Hp)) as [r Hr]. congruence.
Qed.

Lemma is_convertible_returns_when_descent_bounded_witness :
  exists r,
    is_convertible ex_store 4 (reference_t (const_t ex_Derived)) ex_Base
    = Some r.
Proof.
  apply is_convertible_returns_when_descent_bounded.
  vm_compute. reflexivity.
Defined.

(** ** C10: the named internal type that is not found *)

(** [shared_ptr<Foo>] is known by a forward declaration only and [Foo] names
    nothing: [find_value_type] returns [None], and [get_by_name] raises. *)
Lemma counter_forward_declaration_raises :
  is_class_declaration (declarated_t (class_declaration_t 0)) = Ok true /\
  find_value_type ex_FUNDAMENTAL_TYPES 10 ex_global_ns "Foo" = Some (Ok None) /\
  get_by_name ex_FUNDAMENTAL_TYPES ex_templates_args ex_store ex_global_ns
    10 (declarated_t (class_declaration_t 0)) "value_type"
  = Some (Raise RuntimeError).
Proof. repeat split; vm_compute; reflexivity. Qed.

Lemma length_append (a b : string) :
  String.length (a ++ b) = String.length a + String.length b.
Proof. induction a as [|c a IH]; cbn; [reflexivity | now rewrite IH]. Qed.

Lemma length_substring_le (n m : nat) (s : string) :
  String.length (String.substring n m s) <= m.
Proof.
  revert n m. induction s as [|c s IH]; intros n m.
  - destruct n, m; cbn; lia.
  - destruct n as [|n].
    + destruct m as [|m]; cbn; [lia|]. specialize (IH 0 m). lia.
    + cbn. apply IH.
Qed.

Lemma length_drop_le (n : nat) (s : string) :
  String.length (drop n s) <= String.length s - n.
Proof. apply length_substring_le. Qed.

Lemma length_drop_last_le (s : string) :
  String.length (drop_last s) <= String.length s - 1.
Proof. apply length_substring_le. Qed.

Lemma prefix_length (p s : string) :
  String.prefix p s = true -> String.length p <= String.length s.
Proof.
  revert s. induction p as [|c p IH]; intros s H; cbn; [lia|].
  destruct s as [|c' s]; cbn in H; [discriminate H|].
  destruct (ascii_dec c c'); [|discriminate H].
  cbn. specialize (IH s H). lia.
Qed.

Lemma endswith_star_length (s : string) :
  endswith_star s = true -> 1 <= String.length s.
Proof.
  destruct s as [|c s]; [discriminate | cbn; lia].
Qed.

Lemma length_with_global_prefix (s : string) :
  String.length (with_global_prefix s) <= String.length s + 2.
Proof.
  unfold with_global_prefix. destruct (negb _); [|lia].
  rewrite length_append. cbn. lia.
Qed.

Section InternalTypeLookup.

Variable FUNDAMENTAL_TYPES : string -> option type_t.
Variable templates_args : string -> list string.

Lemma find_value_type_returns (global_ns : namespace_t) (budget : nat) :
  forall value_type_str,
    String.length (with_global_prefix value_type_str) < budget ->
    find_value_type FUNDAMENTAL_TYPES budget global_ns value_type_str <> None.
Proof.
  induction budget as [|budget IH]; intros s Hlen; [lia|].
  cbn [find_value_type]. fold (with_global_prefix s).
  destruct (decls global_ns (with_global_prefix s)) as [|x [|y l]];
    try discriminate.
  destruct (FUNDAMENTAL_TYPES _); [discriminate|].
  destruct (is_std_string _); [discriminate|].
  destruct (is_std_wstring _); [discriminate|].
  set (no_ns := drop 2 (with_global_prefix s)).
  assert (Hno : String.length no_ns <= String.length (with_global_prefix s) - 2)
    by apply length_drop_le.
  destruct (startswith "const " no_ns) eqn:Hconst.
  - apply prefix_length in Hconst. cbn [String.length] in Hconst.
    cbn [orb].
    match goal with
    | |- context [find_value_type _ budget global_ns ?v] =>
        assert (Hv : String.length v <= String.length no_ns - 6)
    end.
    { destruct (endswith_star _);
        [etransitivity; [apply length_drop_last_le|]|];
        pose proof (length_drop_le 6 no_ns); lia. }
    match goal with
    | |- context [find_value_type _ budget global_ns ?v] =>
        specialize (IH v); pose proof (length_with_global_prefix v);
        destruct (find_value_type FUNDAMENTAL_TYPES budget global_ns v)
          as [[[f|]|e]|]; try discriminate
    end.
    exfalso. apply IH; [lia | reflexivity].
  - cbn [orb]. destruct (endswith_star no_ns) eqn:Hstar; [|discriminate].
    apply endswith_star_length in Hstar.
    pose proof (length_drop_last_le no_ns) as Hv.
    specialize (IH (drop_last no_ns)).
    pose proof (length_with_global_prefix (drop_last no_ns)).
    destruct (find_value_type FUNDAMENTAL_TYPES budget global_ns
                (drop_last no_ns)) as [[[f|]|e]|]; try discriminate.
    exfalso. apply IH; [lia | reflexivity].
Qed.

End InternalTypeLookup.

(** C10 (amended).  [find_value_type] always returns, and it reports a name
    with several candidates and a name with none (when no fallback applies:
    not a fundamental spelling, not a string type, no [const] or pointer to
    strip) identically, as [None] and not as an exception.
    [get_by_name] does not pass that empty result on: for a class known by
    a forward declaration only it raises a runtime error when
    [find_value_type] finds nothing, and it raises for a full class
    definition as well. *)
Theorem not_found_is_None_then_raised
  (FUNDAMENTAL_TYPES : string -> option type_t)
  (templates_args : string -> list string)
  (st : store) (global_ns : namespace_t) :
  (forall s, exists r,
      find_value_type FUNDAMENTAL_TYPES (S (S (S (String.length s))))
        global_ns s = Some r) /\
  (forall budget s x y l,
      decls global_ns (with_global_prefix s) = x :: y :: l ->
      find_value_type FUNDAMENTAL_TYPES (S budget) global_ns s
      = Some (Ok None)) /\
  (forall budget s,
      decls global_ns (with_global_prefix s) = [] ->
      FUNDAMENTAL_TYPES (drop 2 (with_global_prefix s)) = None ->
      is_std_string (with_global_prefix s) = false ->
      is_std_wstring (with_global_prefix s) = false ->
      startswith "const " (drop 2 (with_global_prefix s)) = false ->
      endswith_star (drop 2 (with_global_prefix s)) = false ->
      find_value_type FUNDAMENTAL_TYPES (S budget) global_ns s
      = Some (Ok None)) /\
  (forall budget (type_ : type_t) name_ id a rest,
      is_class type_ = Ok false ->
      apply_sequence type_ = Ok (D (class_declaration_t id)) ->
      templates_args (class_declaration_name st id) = a :: rest ->
      find_value_type FUNDAMENTAL_TYPES budget global_ns a = Some (Ok None) ->
      get_by_name FUNDAMENTAL_TYPES templates_args st global_ns
        budget type_ name_ = Some (Raise RuntimeError)) /\
  (forall budget (type_ : type_t) name_,
      is_class type_ = Ok true ->
      get_by_name FUNDAMENTAL_TYPES templates_args st global_ns
        budget type_ name_ = Some (Raise RuntimeError)).
Proof.
  split; [|split; [|split; [|split]]].
  - intros s.
    destruct (find_value_type FUNDAMENTAL_TYPES (S (S (S (String.length s))))
                global_ns s) as [r|] eqn:E; [eauto|].
    exfalso. revert E. apply find_value_type_returns.
    pose proof (length_with_global_prefix s). lia.
  - intros budget s x y l H. cbn [find_value_type].
    fold (with_global_prefix s). now rewrite H.
  - intros budget s H HF Hs Hw Hc Hp. cbn [find_value_type].
    fold (with_global_prefix s). now rewrite H, HF, Hs, Hw, Hc, Hp.
  - intros budget type_ name_ id a rest Hclass Hseq Hargs Hfind.
    unfold get_by_name. rewrite Hclass.
    unfold is_class_declaration. rewrite Hseq. cbn [bind].
    now rewrite Hargs, Hfind.
  - intros budget type_ name_ Hclass. unfold get_by_name.
    now rewrite Hclass.
Qed.

Lemma not_found_is_None_then_raised_witness :
  find_value_type ex_FUNDAMENTAL_TYPES 1 ex_global_ns "Dup" = Some (Ok None) /\
  find_value_type ex_FUNDAMENTAL_TYPES 1 ex_global_ns "Foo" = Some (Ok None) /\
  get_by_name ex_FUNDAMENTAL_TYPES ex_templates_args ex_store ex_global_ns
    1 (declarated_t (class_declaration_t 0)) "value_type"
  = Some (Raise RuntimeError) /\
  get_by_name ex_FUNDAMENTAL_TYPES ex_templates_args ex_store ex_global_ns
    1 ex_Base "value_type" = Some (Raise RuntimeError).
Proof.
  destruct (not_found_is_None_then_raised ex_FUNDAMENTAL_TYPES
              ex_templates_args ex_store ex_global_ns)
    as (_ & Hmany & Hzero & Hforward & Hfull).
  split; [eapply (Hmany 0 "Dup"%string); reflexivity|].
  split; [apply (Hzero 0 "Foo"%string); reflexivity|].
  split; [eapply (Hforward 1 _ _ 0); reflexivity|].
  apply Hfull; reflexivity.
Defined.

(** * Further properties of the traits *)

(** ** Classification *)

Lemma type_in_In (x : type_t) (xs : list type_t) :
  type_in x xs = true <-> In x xs.
Proof.
  unfold type_in. rewrite existsb_exists. split.
  - intros (y & Hy & H). apply type_eqb_eq in H. now subst.
  - intros H. exists x. split; [assumption | apply type_eqb_refl].
Qed.

Lemma is_fundamental_remove_alias (t : type_t) :
  is_fundamental (remove_alias t) = is_fundamental t.
Proof.
  unfold is_fundamental. now rewrite !does_match_definition_remove_alias.
Qed.

(** Case analysis on the membership of [remove_alias t] in one of the lists
    of [create_cv_types]. *)
Ltac by_membership H t :=
  apply type_in_In in H; cbn in H;
  rewrite <- (is_fundamental_remove_alias t);
  unfold is_arithmetic, is_integral, is_floating_point, is_void, is_bool;
  repeat (destruct H as [H | H]; [rewrite <- H; repeat split; reflexivity|]);
  destruct H.

(** X1.  The classification predicates agree with each other: an integral
    type is neither floating point nor void, a floating point type is not
    void, a boolean type is integral, void is not arithmetic, and each of
    them is fundamental. *)
Theorem classification_is_consistent (t : type_t) :
  (is_integral t = true ->
   is_floating_point t = false /\ is_void t = false /\
   is_fundamental t = true) /\
  (is_floating_point t = true ->
   is_void t = false /\ is_fundamental t = true) /\
  (is_void t = true -> is_arithmetic t = false /\ is_fundamental t = true) /\
  (is_bool t = true -> is_integral t = true).
Proof.
  split; [|split; [|split]]; intros H.
  - unfold is_integral in H. by_membership H t.
  - unfold is_floating_point in H. by_membership H t.
  - unfold is_void in H. by_membership H t.
  - unfold is_bool in H. apply type_in_In in H. cbn in H.
    unfold is_integral.
    repeat (destruct H as [H | H]; [rewrite <- H; reflexivity|]).
    destruct H.
Qed.

Lemma classification_is_consistent_witness :
  is_floating_point (alias_t "size_type" (const_t (fundamental_t long_unsigned_int_t)))
  = false /\
  is_fundamental (volatile_t (fundamental_t double_t)) = true /\
  is_arithmetic (const_t (fundamental_t void_t)) = false /\
  is_integral (volatile_t (const_t (fundamental_t bool_t))) = true.
Proof.
  split; [|split; [|split]].
  - apply (proj1 (classification_is_consistent _)). reflexivity.
  - apply (proj1 (proj2 (classification_is_consistent _))). reflexivity.
  - apply (proj1 (proj2 (proj2 (classification_is_consistent _)))).
    reflexivity.
  - apply (proj2 (proj2 (proj2 (classification_is_consistent _)))).
    reflexivity.
Defined.

Lemma does_match_definition_under_cv (given : type_t) (main : pyclass) :
  main = cls_pointer_t \/ main = cls_fundamental_t ->
  does_match_definition given main (cls_const_t, cls_volatile_t)
  = under_cv main (map class_of (decompose_type given)) /\
  does_match_definition given main (cls_volatile_t, cls_const_t)
  = under_cv main (map class_of (decompose_type given)).
Proof.
  intros Hmain. unfold does_match_definition.
  pose proof (decompose_type_not_nil given) as Hnil.
  destruct (decompose_type given) as [|x0 [|x1 [|x2 l]]]; [congruence| | |].
  - destruct Hmain as [-> | ->]; destruct x0; split; reflexivity.
  - destruct Hmain as [-> | ->]; destruct x0, x1; split; reflexivity.
  - destruct Hmain as [-> | ->]; destruct x0, x1, x2; split;
      first [ reflexivity
            | cbn -[kind_eq_dec];
              repeat match goal with
                     | |- context [kind_eq_dec ?a ?b] =>
                         destruct (kind_eq_dec a b)
                     end; reflexivity ].
Qed.

Lemma is_pointer_layers (t : type_t) :
  is_pointer t = under_cv cls_pointer_t (map class_of (decompose_type t)).
Proof.
  unfold is_pointer.
  destruct (does_match_definition_under_cv t cls_pointer_t) as [-> ->];
    [now left|].
  apply orb_diag.
Qed.

Lemma is_fundamental_layers (t : type_t) :
  is_fundamental t
  = under_cv cls_fundamental_t (map class_of (decompose_type t)).
Proof.
  unfold is_fundamental.
  destruct (does_match_definition_under_cv t cls_fundamental_t) as [-> ->];
    [now right|].
  apply orb_diag.
Qed.

(** X2.  [is_pointer] and [is_fundamental] accept exactly a pointer
    (a fundamental type) that is bare, under one qualifier, or under one
    [const] and one [volatile] in either order, aliases being looked
    through; the same qualifier twice is not accepted. *)
Theorem is_pointer_is_fundamental_under_cv (t : type_t) :
  is_pointer t = under_cv cls_pointer_t (map class_of (decompose_type t)) /\
  is_fundamental t
  = under_cv cls_fundamental_t (map class_of (decompose_type t)).
Proof. split; [apply is_pointer_layers | apply is_fundamental_layers]. Qed.

(** ** Qualifier removal on types without aliases *)

Lemma alias_free_remove_alias (t : type_t) :
  alias_free t = true -> remove_alias t = t.
Proof. destruct t; cbn; congruence. Qed.

Lemma alias_free_base (t b : type_t) :
  alias_free t = true -> base t = Ok b -> alias_free b = true.
Proof. destruct t; cbn; intros H E; try discriminate E; congruence. Qed.

Lemma is_const_compound (t : type_t) :
  alias_free t = true -> is_const t = true -> exists b, base t = Ok b.
Proof. destruct t; cbn; intros Ha H; try discriminate; eauto. Qed.

Lemma is_volatile_compound (t : type_t) :
  alias_free t = true -> is_volatile t = true -> exists b, base t = Ok b.
Proof. destruct t; cbn; intros Ha H; try discriminate; eauto. Qed.

Lemma const_and_volatile_two_layers (t : type_t) :
  alias_free t = true -> is_const t = true -> is_volatile t = true ->
  exists b b', base t = Ok b /\ base b = Ok b'.
Proof.
  destruct t; cbn; intros Ha Hc Hv; try discriminate.
  - destruct (is_volatile_compound t Ha Hv) as [b' Hb']. eauto.
  - destruct (is_const_compound t Ha Hc) as [b' Hb']. eauto.
  - destruct (is_const_compound t Ha Hc) as [b' Hb']. eauto.
Qed.

Lemma remove_const_alias_free (t : type_t) :
  alias_free t = true ->
  exists r, remove_const t = Ok r /\ alias_free r = true.
Proof.
  intros Ha. unfold remove_const. rewrite (alias_free_remove_alias t Ha).
  destruct (is_const t) eqn:Hc; cbn [negb]; [|eauto].
  destruct t as [ |b|b| | |b n| | | | | ]; cbn in Hc; try discriminate Hc;
    cbn in Ha; try discriminate Ha.
  - cbn. eauto.
  - destruct (is_const_compound b Ha Hc) as [b' Hb']. cbn [base bind].
    rewrite Hb'. cbn [bind]. eexists. split; [reflexivity|].
    cbn. eapply alias_free_base; eassumption.
  - cbn [is_volatile]. fold (is_volatile b).
    change (is_volatile (array_t b n)) with (is_volatile b).
    destruct (is_volatile b) eqn:Hv.
    + destruct (const_and_volatile_two_layers b Ha Hc Hv)
        as (b1 & b2 & H1 & H2).
      cbn [base bind]. rewrite H1. cbn [bind]. rewrite H2.
      eexists. split; [reflexivity|]. cbn.
      eapply alias_free_base; [|eassumption].
      eapply alias_free_base; eassumption.
    + destruct (is_const_compound b Ha Hc) as [b' Hb'].
      cbn [base bind]. rewrite Hb'.
      eexists. split; [reflexivity|]. cbn.
      eapply alias_free_base; eassumption.
Qed.

Lemma remove_volatile_alias_free (t : type_t) :
  alias_free t = true ->
  exists r, remove_volatile t = Ok r /\ alias_free r = true.
Proof.
  intros Ha. unfold remove_volatile. rewrite (alias_free_remove_alias t Ha).
  destruct (is_volatile t) eqn:Hv; cbn [negb]; [|eauto].
  destruct t as [ |b|b| | |b n| | | | | ]; cbn in Hv; try discriminate Hv;
    cbn in Ha; try discriminate Ha.
  - cbn. eauto.
  - cbn. eauto.
  - change (is_const (array_t b n)) with (is_const b).
    destruct (is_const b) eqn:Hc.
    + destruct (const_and_volatile_two_layers b Ha Hc Hv)
        as (b1 & b2 & H1 & H2).
      cbn [base bind]. rewrite H1. cbn [bind]. rewrite H2.
      eexists. split; [reflexivity|]. cbn.
      eapply alias_free_base; [|eassumption].
      eapply alias_free_base; eassumption.
    + destruct (is_volatile_compound b Ha Hv) as [b' Hb'].
      cbn [base bind]. rewrite Hb'.
      eexists. split; [reflexivity|]. cbn.
      eapply alias_free_base; eassumption.
Qed.

Lemma remove_cv_alias_free (t : type_t) :
  alias_free t = true ->
  exists r, remove_cv t = Ok r /\ alias_free r = true.
Proof.
  intros Ha. unfold remove_cv. rewrite (alias_free_remove_alias t Ha).
  destruct (negb (is_const t) && negb (is_volatile t)); [eauto|].
  assert (H1 : exists r, (if is_const t then remove_const t else Ok t) = Ok r
                         /\ alias_free r = true).
  { destruct (is_const t); [now apply remove_const_alias_free | eauto]. }
  destruct H1 as (r1 & -> & Ha1). cbn [bind].
  assert (H2 : exists r, (if is_volatile r1 then remove_volatile r1
                          else Ok r1) = Ok r /\ alias_free r = true).
  { destruct (is_volatile r1); [now apply remove_volatile_alias_free | eauto]. }
  destruct H2 as (r2 & -> & Ha2). cbn [bind].
  destruct (is_const r2); [now apply remove_const_alias_free | eauto].
Qed.

Lemma remove_reference_alias_free (t : type_t) :
  alias_free t = true ->
  exists r, remove_reference t = Ok r /\ alias_free r = true.
Proof.
  intros Ha. unfold remove_reference. rewrite (alias_free_remove_alias t Ha).
  destruct t; cbn; cbn in Ha; eauto; discriminate Ha.
Qed.

Lemma remove_pointer_alias_free (t : type_t) :
  alias_free t = true ->
  exists r, remove_pointer t = Ok r /\ alias_free r = true.
Proof.
  intros Ha. unfold remove_pointer. rewrite (alias_free_remove_alias t Ha).
  destruct (is_pointer t) eqn:Hp; cbn [negb]; [|eauto].
  rewrite is_pointer_layers in Hp.
  destruct t as [ |b|b|b|b|b n| | | | | ]; try discriminate Hp;
    cbn in Ha.
  - destruct b as [ | | |b'| | | | | | | ]; cbn;
      try (destruct (is_calldef_type_t _)); eauto.
  - destruct b as [ |b'| |b'| | | | | | | ]; cbn;
      try (destruct (is_calldef_type_t _)); eauto.
    destruct b'; cbn; eauto.
  - cbn. destruct (is_calldef_type_t b); eauto.
  - discriminate Ha.
Qed.

(** X3.  On a type expression without aliases the removals never raise:
    [remove_const], [remove_volatile], [remove_cv], [remove_reference] and
    [remove_pointer] return a type, again without aliases, [is_array]
    returns a boolean, and [array_size] can only fail its assertion. *)
Theorem removals_total_without_alias (t : type_t) :
  alias_free t = true ->
  (exists r, remove_const t = Ok r /\ alias_free r = true) /\
  (exists r, remove_volatile t = Ok r /\ alias_free r = true) /\
  (exists r, remove_cv t = Ok r /\ alias_free r = true) /\
  (exists r, remove_reference t = Ok r /\ alias_free r = true) /\
  (exists r, remove_pointer t = Ok r /\ alias_free r = true) /\
  (exists b, is_array t = Ok b) /\
  ((exists n, array_size t = Ok n) \/ array_size t = Raise AssertionError).
Proof.
  intros Ha.
  split; [now apply remove_const_alias_free|].
  split; [now apply remove_volatile_alias_free|].
  split; [now apply remove_cv_alias_free|].
  split; [now apply remove_reference_alias_free|].
  split; [now apply remove_pointer_alias_free|].
  destruct (remove_reference_alias_free t Ha) as (r1 & H1 & Ha1).
  destruct (remove_cv_alias_free r1 Ha1) as (r2 & H2 & Ha2).
  split.
  - unfold is_array. rewrite (alias_free_remove_alias t Ha), H1.
    cbn [bind]. rewrite H2. cbn. eauto.
  - unfold array_size. rewrite (alias_free_remove_alias t Ha), H1.
    cbn [bind]. rewrite H2. cbn. destruct r2; eauto.
Qed.

Lemma removals_total_without_alias_witness :
  (exists r, remove_cv (volatile_t (array_t (const_t ex_int) 2)) = Ok r
             /\ alias_free r = true) /\
  (exists b, is_array (reference_t (const_t ex_Base)) = Ok b).
Proof.
  split.
  - apply (removals_total_without_alias
             (volatile_t (array_t (const_t ex_int) 2))). reflexivity.
  - apply (removals_total_without_alias (reference_t (const_t ex_Base))).
    reflexivity.
Defined.

(** ** The size of a qualified array *)

Lemma remove_const_keeps_array (b r : type_t) (n : N) :
  remove_const (array_t b n) = Ok r -> exists b', r = array_t b' n.
Proof.
  unfold remove_const. cbn [remove_alias].
  destruct (is_const (array_t b n)); cbn [negb].
  - destruct (is_volatile (array_t b n)).
    + destruct (b1 <- base (array_t b n) ;; b2 <- base b1 ;; base b2);
        cbn; intros H; [|discriminate H]. injection H as <-. eauto.
    + destruct (b1 <- base (array_t b n) ;; base b1);
        cbn; intros H; [|discriminate H]. injection H as <-. eauto.
  - intros H. injection H as <-. eauto.
Qed.

Lemma remove_volatile_keeps_array (b r : type_t) (n : N) :
  remove_volatile (array_t b n) = Ok r -> exists b', r = array_t b' n.
Proof.
  unfold remove_volatile. cbn [remove_alias].
  destruct (is_volatile (array_t b n)); cbn [negb].
  - destruct (is_const (array_t b n)).
    + destruct (b1 <- base (array_t b n) ;; b2 <- base b1 ;; base b2);
        cbn; intros H; [|discriminate H]. injection H as <-. eauto.
    + destruct (b1 <- base (array_t b n) ;; base b1);
        cbn; intros H; [|discriminate H]. injection H as <-. eauto.
  - intros H. injection H as <-. eauto.
Qed.

Lemma remove_cv_keeps_array (b r : type_t) (n : N) :
  remove_cv (array_t b n) = Ok r -> exists b', r = array_t b' n.
Proof.
  unfold remove_cv. cbn [remove_alias].
  destruct (negb (is_const (array_t b n)) && negb (is_volatile (array_t b n))).
  { intros H. injection H as <-. eauto. }
  assert (H1 : forall r1,
             (if is_const (array_t b n) then remove_const (array_t b n)
              else Ok (array_t b n)) = Ok r1 -> exists b1, r1 = array_t b1 n).
  { intros r1. destruct (is_const (array_t b n)).
    - apply remove_const_keeps_array.
    - intros H. injection H as <-. eauto. }
  destruct (if is_const (array_t b n) then remove_const (array_t b n)
            else Ok (array_t b n)) as [r1|e]; cbn [bind]; [|discriminate].
  destruct (H1 r1 eq_refl) as [b1 ->].
  assert (H2 : forall r2,
             (if is_volatile (array_t b1 n)
              then remove_volatile (array_t b1 n)
              else Ok (array_t b1 n)) = Ok r2 -> exists b2, r2 = array_t b2 n).
  { intros r2. destruct (is_volatile (array_t b1 n)).
    - apply remove_volatile_keeps_array.
    - intros H. injection H as <-. eauto. }
  destruct (if is_volatile (array_t b1 n) then remove_volatile (array_t b1 n)
            else Ok (array_t b1 n)) as [r2|e]; cbn [bind]; [|discriminate].
  destruct (H2 r2 eq_refl) as [b2 ->].
  destruct (is_const (array_t b2 n)).
  - apply remove_const_keeps_array.
  - intros H. injection H as <-. eauto.
Qed.

(** X4.  Stripping the qualifiers of an array never changes its size: the
    result of [remove_cv] on [Array(b, n)] is an array of size [n], and for
    an element type without aliases, however qualified, [is_array] holds
    and [array_size] returns [n]. *)
Theorem array_size_of_qualified_array (b : type_t) (n : N) :
  (forall r, remove_cv (array_t b n) = Ok r -> exists b', r = array_t b' n) /\
  (alias_free b = true ->
   is_array (array_t b n) = Ok true /\ array_size (array_t b n) = Ok n).
Proof.
  split; [intros r; apply remove_cv_keeps_array|].
  intros Ha.
  destruct (remove_cv_alias_free (array_t b n) Ha) as (r & Hr & _).
  destruct (remove_cv_keeps_array _ _ _ Hr) as [b' ->].
  unfold is_array, array_size. cbn [remove_alias].
  change (remove_reference (array_t b n)) with (Ok (array_t b n)).
  cbn [bind]. rewrite Hr. split; reflexivity.
Qed.

Lemma array_size_of_qualified_array_witness :
  array_size (array_t (volatile_t (const_t (pointer_t ex_int))) 7) = Ok 7%N.
Proof.
  apply (array_size_of_qualified_array
           (volatile_t (const_t (pointer_t ex_int))) 7).
  reflexivity.
Defined.

(** ** is_same *)

Lemma obj_eqb_eq (x y : obj) : obj_eqb x y = true <-> x = y.
Proof.
  destruct x as [a|a], y as [b|b]; cbn; try (split; discriminate).
  - rewrite type_eqb_eq. split; congruence.
  - rewrite declaration_eqb_eq. split; congruence.
Qed.

Lemma is_same_iff (x y : obj) :
  is_same x y = true <-> remove_declarated x = remove_declarated y.
Proof. unfold is_same. apply obj_eqb_eq. Qed.

Lemma is_same_refl (x : obj) : is_same x x = true.
Proof. now apply is_same_iff. Qed.

(** ** The trivial conversions *)

Lemma normalize_not_alias (st : store) (t : type_t) :
  remove_alias t = t -> normalize st t = normalize_inner st t.
Proof. intros H. unfold normalize, normalize_inner. now rewrite H. Qed.

Lemma normalize_inner_wrappers (st : store) (t : type_t) :
  normalize st (const_t t) = const_t (normalize_inner st t) /\
  normalize st (pointer_t t) = pointer_t (normalize_inner st t) /\
  normalize st (reference_t t) = reference_t (normalize_inner st t) /\
  normalize st (pointer_t (const_t t))
  = pointer_t (const_t (normalize_inner st t)) /\
  normalize st (reference_t (const_t t))
  = reference_t (const_t (normalize_inner st t)).
Proof.
  unfold normalize, normalize_inner. cbn [remove_alias base_type].
  destruct (base_type t) as [ | | | | | | | | |d| ]; try (repeat split; reflexivity).
  destruct d; repeat split; reflexivity.
Qed.

Lemma test_trivial_adds_const (x : type_t) :
  test_trivial x (const_t x) = Ok true.
Proof.
  unfold test_trivial. destruct (is_same x (const_t x)); [reflexivity|].
  cbn. now rewrite is_same_refl.
Qed.

Lemma test_trivial_adds_reference (x : type_t) :
  test_trivial x (reference_t x) = Ok true.
Proof.
  unfold test_trivial. destruct (is_same x (reference_t x)); [reflexivity|].
  cbn. now rewrite is_same_refl.
Qed.

Lemma test_trivial_adds_const_reference (x : type_t) :
  test_trivial x (reference_t (const_t x)) = Ok true.
Proof.
  unfold test_trivial.
  destruct (is_same x (reference_t (const_t x))); [reflexivity|].
  cbn. destruct (is_same x (const_t x)); [reflexivity|].
  cbn. now rewrite is_same_refl.
Qed.

(** X7.  Adding a qualification is a conversion: a type [X] that is not an
    alias, and whose normal form holds its declaration, converts to
    [const X], to [X&] and to [const X&]. *)
Theorem qualification_is_added (st : store) (budget : nat) (X : type_t) :
  remove_alias X = X ->
  holds_declaration st X = true ->
  is_convertible st (S budget) X (const_t X) = Some (Ok true) /\
  is_convertible st (S budget) X (reference_t X) = Some (Ok true) /\
  is_convertible st (S budget) X (reference_t (const_t X)) = Some (Ok true).
Proof.
  intros HX _. cbn [is_convertible].
  unfold is_convertible_body, is_convertible_method.
  destruct (normalize_inner_wrappers st X) as (-> & _ & -> & _ & ->).
  rewrite (normalize_not_alias st X HX).
  rewrite test_trivial_adds_const, test_trivial_adds_reference,
    test_trivial_adds_const_reference.
  repeat split; reflexivity.
Qed.

Lemma qualification_is_added_witness :
  is_convertible ex_store 1 ex_Hidden (reference_t (const_t ex_Hidden))
  = Some (Ok true).
Proof.
  apply (qualification_is_added ex_store 0 ex_Hidden); reflexivity.
Defined.

Lemma is_pointer_reference_t (x : type_t) : is_pointer (reference_t x) = false.
Proof. rewrite is_pointer_layers. reflexivity. Qed.

Lemma test_trivial_widens_pointer (x : type_t) :
  test_trivial (pointer_t x) (pointer_t (const_t x)) = Ok true.
Proof.
  assert (Hvoid : is_same (pointer_t (const_t x))
                    (pointer_t (fundamental_t void_t)) = false).
  { unfold is_same. cbn. first [reflexivity | apply type_eqb_neq; congruence]. }
  unfold test_trivial.
  destruct (is_same (pointer_t x) (pointer_t (const_t x))); [reflexivity|].
  rewrite !is_pointer_pointer_t.
  cbn -[is_same is_array is_integral is_enum].
  rewrite Hvoid, is_same_refl. reflexivity.
Qed.

Lemma test_trivial_widens_reference (x : type_t) :
  test_trivial (reference_t x) (reference_t (const_t x)) = Ok true.
Proof.
  assert (Hvoid : is_same (reference_t (const_t x))
                    (pointer_t (fundamental_t void_t)) = false).
  { unfold is_same. cbn. first [reflexivity | apply type_eqb_neq; congruence]. }
  unfold test_trivial.
  destruct (is_same (reference_t x) (reference_t (const_t x)));
    [reflexivity|].
  rewrite !is_pointer_reference_t.
  cbn -[is_same is_array is_integral is_enum].
  destruct (is_same (reference_t x) (const_t x)); [reflexivity|].
  destruct (is_same (reference_t x) x); [reflexivity|].
  rewrite Hvoid, is_same_refl. reflexivity.
Qed.

(** X8.  Const-widening under a pointer or a reference is a conversion:
    [X*] converts to [const X*] and [X&] to [const X&], for every [X] whose
    normal form holds its declaration. *)
Theorem pointee_const_is_added (st : store) (budget : nat) (X : type_t) :
  holds_declaration st X = true ->
  is_convertible st (S budget) (pointer_t X) (pointer_t (const_t X))
  = Some (Ok true) /\
  is_convertible st (S budget) (reference_t X) (reference_t (const_t X))
  = Some (Ok true).
Proof.
  intros _. cbn [is_convertible].
  unfold is_convertible_body, is_convertible_method.
  destruct (normalize_inner_wrappers st X) as (_ & -> & -> & -> & ->).
  rewrite test_trivial_widens_pointer, test_trivial_widens_reference.
  split; reflexivity.
Qed.

Lemma pointee_const_is_added_witness :
  is_convertible ex_store 1 (pointer_t (pointer_t ex_Derived))
    (pointer_t (const_t (pointer_t ex_Derived))) = Some (Ok true) /\
  is_convertible ex_store 1 (reference_t ex_int) (reference_t (const_t ex_int))
  = Some (Ok true).
Proof.
  split.
  - apply (pointee_const_is_added ex_store 0 (pointer_t ex_Derived)).
    reflexivity.
  - apply (pointee_const_is_added ex_store 0 ex_int). reflexivity.
Defined.

(** ** Conversions to void*, between fundamental types and from an enum *)

Lemma integral_not_to_void_pointer (st : store)
  (rec : type_t -> type_t -> outcome bool) (s : type_t) :
  is_integral s = true ->
  is_convertible_body st rec s (pointer_t (fundamental_t void_t))
  = Some (Ok false).
Proof.
  intros H. unfold is_integral in H. apply type_in_In in H. cbn in H.
  unfold is_convertible_body, normalize.
  repeat (destruct H as [H | H]; [rewrite <- H; vm_compute; reflexivity|]).
  destruct H.
Qed.

Lemma other_types_to_void_pointer (st : store)
  (rec : type_t -> type_t -> outcome bool) (s : type_t) :
  is_integral (normalize st s) = false ->
  is_enum (normalize st s) = Ok false ->
  is_convertible_body st rec s (pointer_t (fundamental_t void_t))
  = Some (Ok true).
Proof.
  intros Hint Henum.
  unfold is_convertible_body, is_convertible_method, test_trivial.
  change (normalize st (pointer_t (fundamental_t void_t)))
    with (pointer_t (fundamental_t void_t)).
  destruct (is_same (normalize st s) (pointer_t (fundamental_t void_t)));
    [reflexivity|].
  cbn -[is_same is_array is_integral is_enum is_pointer].
  rewrite is_same_refl, Hint, Henum. reflexivity.
Qed.

(** X9.  An integral type, bare or qualified [const], [volatile] or
    [volatile const], and an enumeration do not convert to [void*]; every
    other fundamental type, every class and every pointer whose normal form
    holds its declaration does; and so does an integral type in the nesting
    [const_t(volatile_t(k))], which [is_integral] does not recognise. *)
Theorem conversion_to_void_pointer
  (st : store) (budget : nat) (k : kind) (e id : nat) (X : type_t) :
  let void_pointer := pointer_t (fundamental_t void_t) in
  (is_convertible st (S budget) (fundamental_t k) void_pointer
   = Some (Ok (negb (integral_kind k))) /\
   is_convertible st (S budget) (const_t (fundamental_t k)) void_pointer
   = Some (Ok (negb (integral_kind k))) /\
   is_convertible st (S budget) (volatile_t (fundamental_t k)) void_pointer
   = Some (Ok (negb (integral_kind k))) /\
   is_convertible st (S budget) (volatile_t (const_t (fundamental_t k)))
     void_pointer = Some (Ok (negb (integral_kind k)))) /\
  is_convertible st (S budget) (const_t (volatile_t (fundamental_t k)))
    void_pointer = Some (Ok true) /\
  is_convertible st (S budget) (declarated_t (enumeration_t e)) void_pointer
  = Some (Ok false) /\
  is_convertible st (S budget) (declarated_t (class_t id)) void_pointer
  = Some (Ok true) /\
  (holds_declaration st X = true ->
   is_convertible st (S budget) (pointer_t X) void_pointer = Some (Ok true)).
Proof.
  intros void_pointer. unfold void_pointer.
  split; [destruct k; repeat split; vm_compute; reflexivity|].
  split; [destruct k; vm_compute; reflexivity|].
  split; [vm_compute; reflexivity|].
  split; [vm_compute; reflexivity|].
  intros _. apply other_types_to_void_pointer;
    rewrite (proj1 (proj2 (normalize_inner_wrappers st X))); reflexivity.
Qed.

Lemma conversion_to_void_pointer_witness :
  is_convertible ex_store 1 (pointer_t ex_Base)
    (pointer_t (fundamental_t void_t)) = Some (Ok true).
Proof.
  apply (conversion_to_void_pointer ex_store 0 int_t 0 0 ex_Base).
  reflexivity.
Defined.

(** X10.  Two fundamental types convert to each other exactly when they are
    the same kind or neither is [void]; an enum converts to every
    fundamental type but [void]. *)
Theorem fundamental_conversions
  (st : store) (budget : nat) (k1 k2 : kind) (enum_id : nat) :
  is_convertible st (S budget) (fundamental_t k1) (fundamental_t k2)
  = Some (Ok (kind_eqb k1 k2
              || (negb (is_void_kind k1) && negb (is_void_kind k2)))) /\
  is_convertible st (S budget) (declarated_t (enumeration_t enum_id))
    (fundamental_t k2) = Some (Ok (negb (is_void_kind k2))).
Proof.
  split.
  - destruct k1, k2; vm_compute; reflexivity.
  - destruct k2; vm_compute; reflexivity.
Qed.

(** ** Qualified pointers to a derived class *)

(** X11.  Between pointers to two distinct classes, adding [const] on the
    base side is never accepted, even with public inheritance, and dropping
    it raises [AttributeError] when the base is inherited non-privately
    (the test reads [base.base.base] of a pointer to an unqualified class)
    and is rejected otherwise. *)
Theorem qualified_pointer_to_base (st : store) (budget : nat)
  (Derived Base : nat) :
  Derived <> Base ->
  let d := declarated_t (class_t Derived) in
  let b := declarated_t (class_t Base) in
  is_convertible st (S budget) (pointer_t d) (pointer_t (const_t b))
  = Some (Ok false) /\
  is_convertible st (S budget) (pointer_t (const_t d)) (pointer_t b)
  = Some (if has_non_private_base
               (recursive_bases (class_of_id st Derived)) (class_t Base)
          then Raise AttributeError else Ok false).
Proof.
  intros Hneq d b. unfold d, b. cbn [is_convertible].
  split; unfold is_convertible_body, is_convertible_method, test_trivial,
           test_derived_to_based; crunch;
    destruct (existsb _ (recursive_bases (class_of_id st Derived))) eqn:Hrel;
    destruct (has_non_private_base _ _) eqn:Hnp; cbn; try reflexivity;
    apply non_private_base_is_related in Hnp; congruence.
Qed.

Lemma qualified_pointer_to_base_witness :
  is_convertible ex_store 1 (pointer_t ex_Derived)
    (pointer_t (const_t ex_Base)) = Some (Ok false) /\
  is_convertible ex_store 1 (pointer_t (const_t ex_Derived))
    (pointer_t ex_Base) = Some (Raise AttributeError).
Proof.
  assert (H : 1 <> 0) by discriminate.
  exact (qualified_pointer_to_base ex_store 0 1 0 H).
Defined.

(** ** Array decay *)

(** X12.  An array whose element type is a leaf of the type algebra
    (fundamental, function or declared), and whose normal form holds its
    declaration, decays to a pointer to its element and to a pointer to its
    const element. *)
Theorem array_decays_to_pointer (st : store) (budget : nat)
  (X : type_t) (n : N) :
  is_leaf_type X = true ->
  holds_declaration st X = true ->
  is_convertible st (S budget) (array_t X n) (pointer_t X)
  = Some (Ok true) /\
  is_convertible st (S budget) (array_t X n) (pointer_t (const_t X))
  = Some (Ok true).
Proof.
  intros Hleaf _. cbn [is_convertible].
  destruct X as [k| | | | | |s|s|s|decl|]; try discriminate Hleaf.
  - split; unfold is_convertible_body, is_convertible_method, test_trivial;
      cbn; rewrite ?type_eqb_refl;
      repeat match goal with
             | |- context [type_eqb ?x ?y] => destruct (type_eqb x y); cbn
             end; reflexivity.
  - split; unfold is_convertible_body, is_convertible_method, test_trivial;
      crunch; rewrite ?type_eqb_refl; reflexivity.
  - split; unfold is_convertible_body, is_convertible_method, test_trivial;
      crunch; rewrite ?type_eqb_refl; reflexivity.
  - assert (Hrefl : forall d', declaration_eqb d' d' = true)
      by (intros d'; now apply declaration_eqb_eq).
    destruct decl;
      split; unfold is_convertible_body, is_convertible_method, test_trivial;
      crunch; rewrite ?Hrefl; reflexivity.
Qed.

Lemma array_decays_to_pointer_witness :
  is_convertible ex_store 1 (array_t ex_Base 4) (pointer_t (const_t ex_Base))
  = Some (Ok true).
Proof.
  apply (array_decays_to_pointer ex_store 0 ex_Base 4); reflexivity.
Defined.

(** ** The public copy constructor *)

Lemma first_copy_constructor_spec (parent : declaration)
  (ctors : list constructor_t) :
  exists r, first_copy_constructor parent ctors = Ok r /\
            forall c, r = Some c ->
                      In c ctors /\
                      is_copy_constructor (arguments c) parent = Ok true.
Proof.
  induction ctors as [|c ctors (r & Hr & Hspec)]; cbn.
  - eexists. split; [reflexivity|]. discriminate.
  - destruct (is_copy_constructor_total (arguments c) parent) as [b Hb].
    rewrite Hb. cbn. destruct b.
    + eexists. split; [reflexivity|].
      intros c' H. injection H as <-. split; [now left | assumption].
    + exists r. split; [assumption|].
      intros c' H. destruct (Hspec c' H). split; [now right | assumption].
Qed.

(** X13.  On a class, [has_copy_constructor] never raises, and what it
    returns is a constructor declared in that class, public, and a copy
    constructor of the class according to [is_copy_constructor]; the class
    may be given as a declaration or as a type under const, volatile or an
    alias. *)
Theorem has_copy_constructor_sound (st : store) (id : nat) :
  (exists r, has_copy_constructor st (D (class_t id)) = Ok r) /\
  (forall c,
     has_copy_constructor st (D (class_t id)) = Ok (Some c) ->
     In (constructor c) (declarations (class_of_id st id)) /\
     ctor_access_type c = PUBLIC /\
     is_copy_constructor (arguments c) (class_t id) = Ok true) /\
  (forall n,
     has_copy_constructor st (T (declarated_t (class_t id)))
     = has_copy_constructor st (D (class_t id)) /\
     has_copy_constructor st
       (T (alias_t n (volatile_t (const_t (declarated_t (class_t id))))))
     = has_copy_constructor st (D (class_t id))).
Proof.
  unfold has_copy_constructor, find_copy_constructor. cbn [apply_sequence bind].
  destruct (first_copy_constructor_spec (class_t id)
              (find_all_constructors (declarations (class_of_id st id))))
    as (r & Hr & Hspec).
  rewrite Hr. cbn [bind].
  split; [|split].
  - destruct r as [c|]; [destruct (access_eqb _ _)|]; eauto.
  - intros c H. destruct r as [c'|]; [|discriminate H].
    destruct (access_eqb (ctor_access_type c') PUBLIC) eqn:Hacc;
      [|discriminate H].
    injection H as <-. destruct (Hspec c' eq_refl) as [Hin Hcopy].
    split; [now apply In_find_all_constructors|]. split; [|assumption].
    unfold access_eqb in Hacc.
    destruct (ACCESS_TYPES_eq_dec (ctor_access_type c') PUBLIC);
      [assumption | discriminate Hacc].
  - intros n. split; cbn; rewrite Hr; reflexivity.
Qed.

Lemma has_copy_constructor_sound_witness :
  exists c, has_copy_constructor ex_store (D (class_t 0)) = Ok (Some c) /\
            ctor_access_type c = PUBLIC.
Proof.
  eexists. split; [reflexivity|].
  eapply (proj1 (proj2 (has_copy_constructor_sound ex_store 0))).
  reflexivity.
Defined.

(** ** Unary and binary operators *)

Lemma string_in_In (s : string) (l : list string) :
  string_in s l = true <-> In s l.
Proof.
  unfold string_in. rewrite existsb_exists. split.
  - intros (x & Hx & H). apply String.eqb_eq in H. now subst.
  - intros H. exists s. split; [assumption | apply String.eqb_refl].
Qed.

(** X14.  No declaration is both a unary and a binary operator: for the
    symbols the two lists share ([&], [*], [+], [-]) the number of arguments
    decides, and [++] and [--] are never binary. *)
Theorem unary_and_binary_exclude (oper : calldef_t) :
  is_unary_operator oper && is_binary_operator oper = false.
Proof.
  destruct oper as [[sym args member]|]; [|reflexivity].
  unfold is_unary_operator, is_binary_operator. cbn [symbol oper_arguments is_member_operator_t].
  destruct (string_in sym unary_symbols) eqn:Hu; [|reflexivity].
  apply string_in_In in Hu. cbn in Hu.
  destruct member; destruct args as [|a0 [|a1 [|a2 args]]];
    repeat (destruct Hu as [Hu | Hu];
            [subst sym; cbn -[argument_is_int];
             repeat match goal with
                    | |- context [argument_is_int ?l ?i] =>
                        destruct (argument_is_int l i)
                    end; reflexivity|]);
    destruct Hu.
Qed.

(** ** The well-known spellings *)

(** X15.  A spelling is recognized as at most one of [std::string],
    [std::wstring], [std::ostream] and [std::wostream]. *)
Theorem well_known_spellings_disjoint (s : string) :
  (is_std_string s = true ->
   is_std_wstring s = false /\ is_std_ostream s = false /\
   is_std_wostream s = false) /\
  (is_std_wstring s = true ->
   is_std_ostream s = false /\ is_std_wostream s = false) /\
  (is_std_ostream s = true -> is_std_wostream s = false).
Proof.
  split; [|split]; intros H; apply string_in_In in H; cbn in H;
    repeat (destruct H as [H | H];
            [subst s; repeat split; vm_compute; reflexivity|]);
    destruct H.
Qed.

Lemma well_known_spellings_disjoint_witness :
  is_std_wstring "::std::basic_string<char>" = false /\
  is_std_wostream "::std::ostream" = false.
Proof.
  split.
  - apply (proj1 (well_known_spellings_disjoint _)). reflexivity.
  - apply (proj2 (proj2 (well_known_spellings_disjoint _))). reflexivity.
Defined.

(** ** find_value_type: the optional prefix, and const and pointer *)

Lemma substring_all (s : string) :
  String.substring 0 (String.length s) s = s.
Proof. induction s as [|c s IH]; cbn; [reflexivity | now rewrite IH]. Qed.

Lemma drop_last_star (s : string) : drop_last (s ++ "*") = s.
Proof.
  unfold drop_last. rewrite length_append. cbn [String.length].
  replace (String.length s + 1 - 1) with (String.length s) by lia.
  induction s as [|c s IH]; cbn; [reflexivity | now rewrite IH].
Qed.

Lemma endswith_star_append (s : string) : endswith_star (s ++ "*") = true.
Proof.
  unfold endswith_star, drop. rewrite length_append. cbn [String.length].
  replace (String.length s + 1 - 1) with (String.length s) by lia.
  replace (String.length s + 1 - String.length s) with 1 by lia.
  induction s as [|c s IH]; cbn; [reflexivity | exact IH].
Qed.

(** X16.  The global namespace prefix of the name is optional:
    [find_value_type] gives the same result on [s] and on ["::" + s]. *)
Theorem find_value_type_prefix_optional
  (FUNDAMENTAL_TYPES : string -> option type_t) (budget : nat)
  (global_ns : namespace_t) (s : string) :
  startswith "::" s = false ->
  find_value_type FUNDAMENTAL_TYPES budget global_ns ("::" ++ s)
  = find_value_type FUNDAMENTAL_TYPES budget global_ns s.
Proof.
  intros H. destruct budget as [|budget]; [reflexivity|].
  cbn [find_value_type]. rewrite H.
  replace (startswith "::" ("::" ++ s)) with true; [reflexivity|].
  cbn. destruct s; reflexivity.
Qed.

Lemma find_value_type_prefix_optional_witness :
  find_value_type ex_FUNDAMENTAL_TYPES 3 ex_global_ns "::Bar"
  = find_value_type ex_FUNDAMENTAL_TYPES 3 ex_global_ns "Bar".
Proof.
  apply (find_value_type_prefix_optional ex_FUNDAMENTAL_TYPES 3 ex_global_ns
           "Bar").
  reflexivity.
Defined.

(** X17.  A name that is not declared as such and is spelled
    ["const " + s + "*"] is resolved through [s]: when [s] is found, the
    result is a pointer to the const of what was found (a class being
    referred to through [declarated_t]); when [s] is not found, neither is
    the name. *)
Theorem find_value_type_const_pointer
  (FUNDAMENTAL_TYPES : string -> option type_t) (budget : nat)
  (global_ns : namespace_t) (s : string) :
  decls global_ns ("::const " ++ s ++ "*") = [] ->
  FUNDAMENTAL_TYPES ("const " ++ s ++ "*")%string = None ->
  (forall f,
     find_value_type FUNDAMENTAL_TYPES budget global_ns s
     = Some (Ok (Some f)) ->
     find_value_type FUNDAMENTAL_TYPES (S budget) global_ns
       ("const " ++ s ++ "*")
     = Some (Ok (Some (wrap_pointer (wrap_const (wrap_declarated f)))))) /\
  (find_value_type FUNDAMENTAL_TYPES budget global_ns s = Some (Ok None) ->
   find_value_type FUNDAMENTAL_TYPES (S budget) global_ns
     ("const " ++ s ++ "*") = Some (Ok None)).
Proof.
  intros Hdecls Hfund.
  assert (Hstep :
            find_value_type FUNDAMENTAL_TYPES (S budget) global_ns
              ("const " ++ s ++ "*")
            = match find_value_type FUNDAMENTAL_TYPES budget global_ns s with
              | None => None
              | Some (Raise e) => Some (Raise e)
              | Some (Ok None) => Some (Ok None)
              | Some (Ok (Some found)) =>
                  Some (Ok (Some (wrap_pointer
                                    (wrap_const (wrap_declarated found)))))
              end).
  { cbn [find_value_type].
    change (startswith "::" ("const " ++ s ++ "*")) with false.
    cbn [negb].
    change ("::" ++ "const " ++ s ++ "*")%string
      with ("::const " ++ s ++ "*")%string.
    rewrite Hdecls.
    assert (Hdrop : drop 2 ("::const " ++ s ++ "*")
                    = ("const " ++ s ++ "*")%string).
    { unfold drop. cbn. now rewrite substring_all. }
    rewrite Hdrop, Hfund.
    change (is_std_string ("::const " ++ s ++ "*")) with false.
    change (is_std_wstring ("::const " ++ s ++ "*")) with false.
    assert (Hconst : startswith "const " ("const " ++ s ++ "*") = true).
    { unfold startswith. cbn. destruct (s ++ "*")%string; reflexivity. }
    rewrite Hconst.
    assert (Hdrop6 : drop 6 ("const " ++ s ++ "*") = (s ++ "*")%string).
    { unfold drop. cbn. rewrite Nat.sub_0_r. apply substring_all. }
    rewrite Hdrop6, endswith_star_append, drop_last_star.
    cbn [orb]. reflexivity. }
  rewrite Hstep. split.
  - intros f ->. reflexivity.
  - intros ->. reflexivity.
Qed.

Lemma find_value_type_const_pointer_witness :
  find_value_type ex_FUNDAMENTAL_TYPES 2 ex_global_ns "const Bar*"
  = Some (Ok (Some (found_obj
                      (T (pointer_t (const_t (declarated_t (class_t 0)))))))).
Proof.
  exact (proj1 (find_value_type_const_pointer ex_FUNDAMENTAL_TYPES 1
                  ex_global_ns "Bar" eq_refl eq_refl)
           (found_obj (D (class_t 0))) eq_refl).
Defined.

(** ** Binding a reference and function pointers *)

Lemma declaration_eqb_refl (d : declaration) : declaration_eqb d d = true.
Proof. now apply declaration_eqb_eq. Qed.

(** X18.  A reference binds to a value of its referent type: [const X&] and
    [X&] convert to [X] when [X] is fundamental, an enum, or a class for
    which [has_copy_constructor] finds a public copy constructor. *)
Theorem reference_converts_to_value (st : store) (budget : nat) :
  (forall k,
     is_convertible st (S budget) (reference_t (const_t (fundamental_t k)))
       (fundamental_t k) = Some (Ok true) /\
     is_convertible st (S budget) (reference_t (fundamental_t k))
       (fundamental_t k) = Some (Ok true)) /\
  (forall e,
     is_convertible st (S budget)
       (reference_t (const_t (declarated_t (enumeration_t e))))
       (declarated_t (enumeration_t e)) = Some (Ok true) /\
     is_convertible st (S budget)
       (reference_t (declarated_t (enumeration_t e)))
       (declarated_t (enumeration_t e)) = Some (Ok true)) /\
  (forall id c,
     has_copy_constructor st (D (class_t id)) = Ok (Some c) ->
     is_convertible st (S budget)
       (reference_t (const_t (declarated_t (class_t id))))
       (declarated_t (class_t id)) = Some (Ok true) /\
     is_convertible st (S budget)
       (reference_t (declarated_t (class_t id)))
       (declarated_t (class_t id)) = Some (Ok true)).
Proof.
  split; [|split].
  - intros k. split; destruct k; vm_compute; reflexivity.
  - intros e. cbn [is_convertible].
    split; unfold is_convertible_body, is_convertible_method, test_trivial,
             test_const_x_ref__to__x, test_ref_x__to__x;
      crunch; rewrite ?declaration_eqb_refl; reflexivity.
  - intros id c Hcopy. cbn [is_convertible].
    split; unfold is_convertible_body, is_convertible_method, test_trivial,
             test_const_x_ref__to__x, test_ref_x__to__x,
             copy_constructible_class;
      repeat (first
                [ progress cbn -[has_copy_constructor]
                | rewrite declaration_eqb_refl
                | rewrite Hcopy
                | match goal with
                  | |- context [type_eqb ?x ?y] =>
                      rewrite (type_eqb_neq x y) by congruence
                  | |- context [declaration_eqb ?x ?y] =>
                      rewrite (declaration_eqb_neq x y) by congruence
                  end ]);
      reflexivity.
Qed.

Lemma reference_converts_to_value_witness :
  is_convertible ex_store 1 (reference_t (const_t ex_Base)) ex_Base
  = Some (Ok true).
Proof.
  destruct (reference_converts_to_value ex_store 0) as (_ & _ & Hclass).
  eapply Hclass. reflexivity.
Defined.

(** X19.  A pointer to a callable type converts to a reference to that
    callable type and to the callable type itself, and back. *)
Theorem function_pointer_conversions (st : store) (budget : nat) (f : type_t) :
  is_func_or_mv f = true ->
  is_convertible st (S budget) (pointer_t f) (reference_t f) = Some (Ok true) /\
  is_convertible st (S budget) (pointer_t f) f = Some (Ok true) /\
  is_convertible st (S budget) f (pointer_t f) = Some (Ok true) /\
  is_convertible st (S (S budget)) (reference_t f) (pointer_t f)
  = Some (Ok true).
Proof.
  intros Hf.
  destruct f as [ | | | | | |s|s|s| | ]; try discriminate Hf;
    (split; [|split; [|split]]);
    cbn [is_convertible];
    unfold is_convertible_body, is_convertible_method, test_trivial,
      test_const_x_ref__to__x, test_ref_x__to__x,
      test_pointer_to_func_or_mv__to__func_or_mv;
    crunch; rewrite ?type_eqb_refl; reflexivity.
Qed.

Lemma function_pointer_conversions_witness :
  is_convertible ex_store 2
    (reference_t (free_function_type_t "int (*)( double )"))
    (pointer_t (free_function_type_t "int (*)( double )"))
  = Some (Ok true).
Proof.
  apply (function_pointer_conversions ex_store 0
           (free_function_type_t "int (*)( double )")).
  reflexivity.
Defined.

(** X20.  A pointer to a free or member function type is a calldef pointer
    under every qualification; [remove_pointer] keeps it whole only when it
    is unqualified, and under [const] or [volatile] it strips the pointer
    and leaves the qualified function type.  A pointer to a member variable
    type is not a calldef pointer, and [remove_pointer] strips it. *)
Theorem calldef_pointer_under_qualifiers (f : type_t) :
  is_calldef_type_t f = true ->
  is_calldef_pointer (pointer_t f) = Ok true /\
  is_calldef_pointer (const_t (pointer_t f)) = Ok true /\
  is_calldef_pointer (volatile_t (pointer_t f)) = Ok true /\
  is_calldef_pointer (volatile_t (const_t (pointer_t f))) = Ok true /\
  is_calldef_pointer (const_t (volatile_t (pointer_t f))) = Ok true /\
  remove_pointer (pointer_t f) = Ok (pointer_t f) /\
  remove_pointer (const_t (pointer_t f)) = Ok (const_t f) /\
  remove_pointer (volatile_t (pointer_t f)) = Ok (volatile_t f) /\
  (forall mv,
     is_calldef_pointer (pointer_t (member_variable_type_t mv)) = Ok false /\
     remove_pointer (pointer_t (member_variable_type_t mv))
     = Ok (member_variable_type_t mv)).
Proof.
  intros Hf.
  destruct f; try discriminate Hf; repeat split; reflexivity.
Qed.

Lemma calldef_pointer_under_qualifiers_witness :
  remove_pointer (const_t (pointer_t (member_function_type_t "m")))
  = Ok (const_t (member_function_type_t "m")).
Proof.
  apply (calldef_pointer_under_qualifiers (member_function_type_t "m")).
  reflexivity.
Defined.

(** ** Copy semantics *)

Section CopySemanticsFacts.

Variable st : store.
Variable decl_string : declaration -> string.
Variable destructors : nat -> list ACCESS_TYPES.
Variable mem_opers : nat -> list (string * ACCESS_TYPES).
Variable find_noncopyable_vars : nat -> list string.

Lemma is_union_of_class (class_ : obj) (id : nat) :
  apply_sequence class_ = Ok (D (class_t id)) ->
  is_union st class_ =
  Ok (match class_type (class_of_id st id) with UNION => true | _ => false end).
Proof.
  intros H. unfold is_union, is_class. rewrite H. reflexivity.
Qed.

Lemma has_copy_constructor_None (id : nat) :
  has_copy_constructor st (D (class_t id)) = Ok None ->
  exists copy_,
    find_copy_constructor st id = Ok copy_ /\
    match copy_ with
    | Some c => access_eqb (ctor_access_type c) PUBLIC && negb (ctor_is_artificial c)
    | None => false
    end = false.
Proof.
  unfold has_copy_constructor. cbn.
  destruct (find_copy_constructor st id) as [[c|]|e]; cbn; try discriminate.
  - destruct (access_eqb (ctor_access_type c) PUBLIC) eqn:Ha; try discriminate.
    intros _. exists (Some c). rewrite Ha. split; reflexivity.
  - intros _. exists None. split; reflexivity.
Qed.

Lemma base_makes_noncopyable_marked (bases : list hierarchy_info_t)
  (base_desc : hierarchy_info_t) (b : bool) :
  In base_desc bases ->
  (string_in (decl_string (related_class base_desc))
     ["::boost::noncopyable"; "::boost::noncopyable_::noncopyable"]%string = true
   \/ exists bid c,
        related_class base_desc = class_t bid /\
        find_copy_constructor st bid = Ok (Some c) /\
        ctor_access_type c = PRIVATE) ->
  base_makes_noncopyable st decl_string destructors mem_opers
    find_noncopyable_vars bases = Ok b ->
  b = true.
Proof.
  intros Hin Hmark. induction bases as [|x rest IH]; [destruct Hin|].
  cbn [base_makes_noncopyable].
  destruct Hin as [-> | Hin].
  - destruct Hmark as [Hname | (bid & c & Hrel & Hfind & Hacc)].
    + rewrite Hname. cbn; congruence.
    + destruct (string_in (decl_string (related_class base_desc)) _);
        [cbn; congruence|].
      rewrite Hrel. unfold has_copy_constructor. cbn.
      rewrite Hfind. cbn. rewrite Hacc. cbn.
      cbn; congruence.
  - destruct (string_in (decl_string (related_class x)) _);
      [cbn; congruence|].
    destruct (has_copy_constructor st (D (related_class x))) as [cc|e];
      cbn; [|discriminate].
    match goal with
    | |- (_ <- ?m ;; _) = _ -> _ => destruct m as [[|]|e]; cbn; try discriminate
    end.
    + cbn; congruence.
    + destruct (is_noncopyable_single _ _ _ _ _) as [[|]|e]; cbn;
        try discriminate.
      * cbn; congruence.
      * auto.
Qed.

Ltac cbn_copy :=
  cbn -[has_copy_constructor has_public_constructor has_destructor
        has_public_destructor is_noncopyable_single base_makes_noncopyable].

(** X21. [is_noncopyable] decides three cases before it looks at anything
    else of the class: a union is copyable, also an abstract one; a class that
    is not a union and is abstract is noncopyable; a class that is not
    abstract and has a public copy constructor that is not artificial is
    copyable, whatever its bases, its destructor and its member variables
    are. *)
Theorem is_noncopyable_decided_early (class_ : obj) (id : nat) :
  apply_sequence class_ = Ok (D (class_t id)) ->
  (class_type (class_of_id st id) = UNION ->
   is_noncopyable st decl_string destructors mem_opers find_noncopyable_vars
     class_ = Ok false) /\
  (class_type (class_of_id st id) <> UNION ->
   is_abstract (class_of_id st id) = true ->
   is_noncopyable st decl_string destructors mem_opers find_noncopyable_vars
     class_ = Ok true) /\
  (forall c,
     is_abstract (class_of_id st id) = false ->
     find_copy_constructor st id = Ok (Some c) ->
     ctor_access_type c = PUBLIC ->
     ctor_is_artificial c = false ->
     is_noncopyable st decl_string destructors mem_opers find_noncopyable_vars
     class_ = Ok false).
Proof.
  intros Hseq. unfold is_noncopyable.
  rewrite Hseq, (is_union_of_class _ _ Hseq). cbn.
  split; [|split].
  - intros ->. reflexivity.
  - intros Hu ->. destruct (class_type _); try reflexivity. contradiction.
  - intros c Habs Hfind Hacc Hart.
    rewrite Habs, Hfind. cbn. rewrite Hacc, Hart.
    destruct (class_type _); reflexivity.
Qed.

(** X22. A class that is not a union and has no public copy constructor
    ([has_copy_constructor] gives [None]: there is none, or it is protected
    or private) is never reported copyable: whenever [is_noncopyable] returns,
    it returns [True]; and it does return [True] when the class has no base
    class. *)
Theorem is_noncopyable_without_public_copy_constructor
  (class_ : obj) (id : nat) :
  apply_sequence class_ = Ok (D (class_t id)) ->
  class_type (class_of_id st id) <> UNION ->
  has_copy_constructor st (D (class_t id)) = Ok None ->
  (forall b, is_noncopyable st decl_string destructors mem_opers find_noncopyable_vars
     class_ = Ok b -> b = true) /\
  (recursive_bases (class_of_id st id) = [] ->
   is_noncopyable st decl_string destructors mem_opers find_noncopyable_vars
     class_ = Ok true).
Proof.
  intros Hseq Hu Hnone.
  destruct (has_copy_constructor_None _ Hnone) as (copy_ & Hfind & Hcheck).
  unfold is_noncopyable.
  rewrite Hseq, (is_union_of_class _ _ Hseq). cbn_copy.
  assert (Hnu : match class_type (class_of_id st id) with
                | UNION => true | _ => false end = false)
    by (destruct (class_type _); try reflexivity; contradiction).
  rewrite Hnu. rewrite Hfind. cbn_copy. rewrite Hcheck.
  split.
  - intros b. destruct (is_abstract _); [cbn; congruence|].
    destruct (base_makes_noncopyable _ _ _ _ _ _) as [[|]|e]; cbn_copy;
      try discriminate.
    + cbn_copy; congruence.
    + rewrite Hnone. cbn_copy. cbn_copy; congruence.
  - intros ->. destruct (is_abstract _); [reflexivity|].
    cbn_copy. rewrite Hnone. reflexivity.
Qed.

(** X23. A class that is not a union and has no public user-declared copy
    constructor, and that has among its bases a class named
    [::boost::noncopyable] or [::boost::noncopyable_::noncopyable], or a class
    whose copy constructor is private, is never reported copyable: whenever
    [is_noncopyable] returns, it returns [True]. *)
Theorem is_noncopyable_from_base
  (class_ : obj) (id : nat) (base_desc : hierarchy_info_t) :
  apply_sequence class_ = Ok (D (class_t id)) ->
  class_type (class_of_id st id) <> UNION ->
  (forall c, find_copy_constructor st id = Ok (Some c) ->
             ctor_access_type c <> PUBLIC \/ ctor_is_artificial c = true) ->
  In base_desc (recursive_bases (class_of_id st id)) ->
  (string_in (decl_string (related_class base_desc))
     ["::boost::noncopyable"; "::boost::noncopyable_::noncopyable"]%string = true
   \/ exists bid c,
        related_class base_desc = class_t bid /\
        find_copy_constructor st bid = Ok (Some c) /\
        ctor_access_type c = PRIVATE) ->
  forall b, is_noncopyable st decl_string destructors mem_opers find_noncopyable_vars
     class_ = Ok b -> b = true.
Proof.
  intros Hseq Hu Hcopy Hin Hmark b.
  unfold is_noncopyable.
  rewrite Hseq, (is_union_of_class _ _ Hseq). cbn_copy.
  assert (Hnu : match class_type (class_of_id st id) with
                | UNION => true | _ => false end = false)
    by (destruct (class_type _); try reflexivity; contradiction).
  rewrite Hnu.
  destruct (is_abstract _); [cbn; congruence|].
  destruct (find_copy_constructor st id) as [copy_|e] eqn:Hfind; cbn_copy;
    [|discriminate].
  assert (Hcheck : match copy_ with
                   | Some c => access_eqb (ctor_access_type c) PUBLIC
                               && negb (ctor_is_artificial c)
                   | None => false
                   end = false).
  { destruct copy_ as [c|]; [|reflexivity].
    destruct (Hcopy c eq_refl) as [Ha | Ha].
    - unfold access_eqb.
      destruct (ACCESS_TYPES_eq_dec _ _); [contradiction|reflexivity].
    - rewrite Ha. apply andb_false_r. }
  rewrite Hcheck.
  destruct (base_makes_noncopyable _ _ _ _ _ _) as [[|]|e] eqn:Hloop; cbn_copy;
    try discriminate.
  - cbn_copy; congruence.
  - discriminate (base_makes_noncopyable_marked _ _ _ Hin Hmark Hloop).
Qed.

End CopySemanticsFacts.

Lemma is_noncopyable_decided_early_witness :
  is_noncopyable ex_copy_store ex_decl_string (fun _ => []) (fun _ => [])
    (fun _ => []) (T (const_t (declarated_t (class_t 2)))) = Ok false /\
  is_noncopyable ex_copy_store ex_decl_string (fun _ => []) (fun _ => [])
    (fun _ => []) (D (class_t 3)) = Ok true /\
  is_noncopyable ex_copy_store ex_decl_string (fun _ => []) (fun _ => [])
    (fun _ => []) (D (class_t 4)) = Ok false.
Proof.
  split; [|split].
  - apply (proj1 (is_noncopyable_decided_early ex_copy_store ex_decl_string
                    (fun _ => []) (fun _ => []) (fun _ => [])
                    (T (const_t (declarated_t (class_t 2)))) 2 eq_refl)).
    reflexivity.
  - apply (proj1 (proj2 (is_noncopyable_decided_early ex_copy_store
                    ex_decl_string (fun _ => []) (fun _ => []) (fun _ => [])
                    (D (class_t 3)) 3 eq_refl))).
    + discriminate.
    + reflexivity.
  - apply (proj2 (proj2 (is_noncopyable_decided_early ex_copy_store
                    ex_decl_string (fun _ => []) (fun _ => []) (fun _ => [])
                    (D (class_t 4)) 4 eq_refl))
             {| arguments := [ {| arg_name := "other";
                                  decl_type :=
                                    reference_t
                                      (const_t (declarated_t (class_t 4))) |} ];
                ctor_access_type := PUBLIC;
                ctor_is_artificial := false |}).
    + reflexivity.
    + reflexivity.
    + reflexivity.
    + reflexivity.
Defined.

Lemma is_noncopyable_without_public_copy_constructor_witness :
  is_noncopyable ex_copy_store ex_decl_string (fun _ => []) (fun _ => [])
    (fun _ => []) (D (class_t 0)) = Ok true.
Proof.
  apply (proj2 (is_noncopyable_without_public_copy_constructor ex_copy_store
                  ex_decl_string (fun _ => []) (fun _ => []) (fun _ => [])
                  (D (class_t 0)) 0 eq_refl
                  ltac:(discriminate) eq_refl)).
  reflexivity.
Defined.

Lemma is_noncopyable_from_base_witness :
  In ex_noncopyable_base (recursive_bases (ex_copy_classes 1)) /\
  is_noncopyable ex_copy_store ex_decl_string (fun _ => []) (fun _ => [])
    (fun _ => []) (D (class_t 1)) = Ok true /\
  true = true.
Proof.
  split; [left; reflexivity|]. split; [reflexivity|].
  apply (is_noncopyable_from_base ex_copy_store ex_decl_string
           (fun _ => []) (fun _ => []) (fun _ => [])
           (D (class_t 1)) 1 ex_noncopyable_base eq_refl).
  - discriminate.
  - intros c [= <-]. right. reflexivity.
  - left. reflexivity.
  - left. reflexivity.
  - reflexivity.
Defined.
